(** * Employee reminders (erpnext/hr/doctype/employee/employee_reminders.py)

    A shallow embedding of the reminder dispatcher and the proofs of the
    properties its specification states.

    The module is orchestration: it reads HR Settings, queries the Employee
    table, builds text and calls [frappe.sendmail].  The embedding keeps
    that shape.  Effects (mails handed to the mail sender, holiday queries
    handed to the holiday store) are written to a trace; Python exceptions
    are an explicit result; the collaborators that live outside the file
    are fields of an environment record. *)

From stdpp Require Import gmap strings list pretty.
From Stdlib Require Import ZArith Lia Ascii.

Open Scope Z_scope.
Open Scope string_scope.
Open Scope list_scope.

(** ** Python values and control *)

Module Py.

(** A value that is either [None] or a [str]. *)
Definition pystr := option string.

(** Truthiness of [None] / [str]: [None] and the empty string are falsy. *)
Definition truthy (v : pystr) : bool :=
  match v with
  | None => false
  | Some s => negb (String.eqb s "")
  end.

(** [a or b] *)
Definition or_ (a b : pystr) : pystr := if truthy a then a else b.

(** [int(v or d)] for a value [v] that is [None] or an [int]:
    [None] and [0] are falsy, so both give [d]. *)
Definition int_or (v : option Z) (d : Z) : Z :=
  match v with
  | None => d
  | Some z => if (z =? 0)%Z then d else z
  end.

Inductive exn : Type :=
| TypeError (msg : string)
| KeyError (key : string)
| AttributeError (msg : string)
| DoesNotExistError (name : string)
| ProgrammingError (msg : string)
| CollaboratorError (what : string).

Inductive result (A : Type) : Type :=
| Ok (a : A)
| Raise (e : exn).
Arguments Ok {A} a.
Arguments Raise {A} e.

#[global] Instance result_ret : MRet result := @Ok.
#[global] Instance result_bind : MBind result :=
  λ A B k r, match r with Ok a => k a | Raise e => Raise e end.

(** The placeholders [{0}] ... [{9}] of [str.format]. *)
Definition digit_index (c : ascii) : option nat :=
  let n := nat_of_ascii c in
  if (48 <=? n)%nat && (n <=? 57)%nat then Some (n - 48)%nat else None.

(** [tpl.format(a0, a1, ...)] for templates whose only replacement fields are
    positional [{i}]: every field is replaced by its argument, every
    other character is copied.  The inserted text is not scanned again. *)
Fixpoint format (tpl : string) (args : list string) : string :=
  match tpl with
  | EmptyString => EmptyString
  | String c tl =>
      match c, tl with
      | "{"%char, String d (String "}"%char rest) =>
          match digit_index d with
          | Some i => nth i args "" +:+ format rest args
          | None => String c (format tl args)
          end
      | _, _ => String c (format tl args)
      end
  end.

(** [sep.join(parts)] *)
Fixpoint join (sep : string) (parts : list string) : string :=
  match parts with
  | [] => ""
  | [s] => s
  | s :: rest => s +:+ sep +:+ join sep rest
  end.

End Py.
Export Py.

(** ** Effects: a trace of calls, and exceptions *)

(** A computation yields the calls it made, in order, and either a value
    or the exception that stopped it.  What was called before an exception
    stays in the trace. *)
Definition M (Ev A : Type) : Type := (list Ev * result A)%type.

Section Effects.
Context {Ev : Type}.

Definition ret {A} (a : A) : M Ev A := ([], Ok a).
Definition raise {A} (e : exn) : M Ev A := ([], Raise e).
Definition emit (ev : Ev) : M Ev unit := ([ev], Ok tt).
Definition lift {A} (r : result A) : M Ev A := ([], r).

Definition bind {A B} (k : A → M Ev B) (m : M Ev A) : M Ev B :=
  match m with
  | (t1, Ok a) => let '(t2, r) := k a in (t1 ++ t2, r)
  | (t1, Raise e) => (t1, Raise e)
  end.

#[global] Instance M_ret : MRet (M Ev) := @ret.
#[global] Instance M_bind : MBind (M Ev) := @bind.

(** [for x in xs: body(x)] *)
Fixpoint for_each {A} (xs : list A) (body : A → M Ev unit) : M Ev unit :=
  match xs with
  | [] => ret tt
  | x :: rest => body x;; for_each rest body
  end.

(** [ys = []; for x in xs: ys.append(f(x))] for an [f] that may raise *)
Fixpoint collect {A B} (f : A → result B) (xs : list A) : result (list B) :=
  match xs with
  | [] => Ok []
  | x :: rest =>
      match f x with
      | Ok y => match collect f rest with Ok ys => Ok (y :: ys) | Raise e => Raise e end
      | Raise e => Raise e
      end
  end.

Definition trace {A} (m : M Ev A) : list Ev := fst m.
Definition outcome {A} (m : M Ev A) : result A := snd m.
End Effects.

(** ** The framework utilities the module imports (frappe, frappe.utils) *)

Module Frappe.

(** A [datetime.date].  The run reads the clock through [getdate()] and
    [today()]; one run sees one date. *)
Record Date : Type := mkDate { year : Z; month : Z; day : Z }.

#[global] Instance Date_eq_dec : EqDecision Date.
Proof. solve_decision. Defined.

Definition is_leap (y : Z) : bool :=
  ((y mod 4 =? 0)%Z && negb (y mod 100 =? 0)%Z) || (y mod 400 =? 0)%Z.

Definition days_in_month (y m : Z) : Z :=
  if (m =? 2)%Z then (if is_leap y then 29 else 28)
  else if (m =? 4)%Z || (m =? 6)%Z || (m =? 9)%Z || (m =? 11)%Z then 30
  else 31.

Definition next_day (d : Date) : Date :=
  if (day d <? days_in_month (year d) (month d))%Z
  then mkDate (year d) (month d) (day d + 1)
  else if (month d <? 12)%Z then mkDate (year d) (month d + 1) 1
  else mkDate (year d + 1) 1 1.

Definition prev_day (d : Date) : Date :=
  if (1 <? day d)%Z then mkDate (year d) (month d) (day d - 1)
  else if (1 <? month d)%Z
  then mkDate (year d) (month d - 1) (days_in_month (year d) (month d - 1))
  else mkDate (year d - 1) 12 31.

(** [date + timedelta(days=n)] *)
Definition plus_days (d : Date) (n : Z) : Date :=
  match n with
  | Z0 => d
  | Zpos p => Pos.iter next_day d p
  | Zneg p => Pos.iter prev_day d p
  end.

(** [add_days(date, days)].  Both parameters are required and positional:
    a call that passes the date alone is [add_days date None] here and
    raises the [TypeError] Python raises for it. *)
Definition add_days (date : Date) (days : option Z) : result Date :=
  match days with
  | Some n => Ok (plus_days date n)
  | None =>
      Raise (TypeError "add_days() missing 1 required positional argument: 'days'")
  end.

(** [add_months(date, months)]: the month moves, the day is kept unless
    the target month is shorter, then it is its last day. *)
Definition add_months (date : Date) (months : Z) : Date :=
  let t := year date * 12 + (month date - 1) + months in
  let y := t / 12 in
  let m := t mod 12 + 1 in
  mkDate y m (Z.min (day date) (days_in_month y m)).

(** [comma_sep(some_list, pattern, add_quotes)] for a list of [str];
    [tr] is the translation function [frappe._]. *)
Definition comma_sep (tr : string → string) (some_list : list string)
    (pattern : string) (add_quotes : bool) : string :=
  match some_list with
  | [] => ""
  | [s] => s
  | _ =>
      let quoted :=
        if add_quotes then map (λ s, "'" +:+ s +:+ "'") some_list else some_list in
      format pattern [join ", " (map tr (removelast quoted)); List.last quoted ""]
  end.

(** [comma_and(some_list, add_quotes)] *)
Definition comma_and (tr : string → string) (some_list : list string)
    (add_quotes : bool) : string :=
  comma_sep tr some_list (tr "{0} and {1}") add_quotes.

End Frappe.
Export Frappe.

(** ** Data model *)

(** A row of [tabEmployee] (the columns the module and its queries read).
    [emp_name] is the document name, the primary key. *)
Record Employee : Type := mkEmployee {
  emp_name : string;
  emp_employee_name : string;
  emp_company : pystr;
  emp_personal_email : pystr;
  emp_company_email : pystr;
  emp_user_id : pystr;
  emp_image : pystr;
  emp_date_of_birth : option Date;
  emp_date_of_joining : option Date;
  emp_status : string
}.

#[global] Instance Employee_eq_dec : EqDecision Employee.
Proof. solve_decision. Defined.

(** A result row of the query in [get_employees_having_an_event_today],
    a dict with the keys of the SELECT list ([employee_name] under the key
    [name]).  [date_of_joining] is [None] for a dict without the key,
    [Some None] for SQL NULL. *)
Record Row : Type := mkRow {
  personal_email : pystr;
  company : pystr;
  company_email : pystr;
  user_id : pystr;
  name : string;
  image : pystr;
  date_of_joining : option (option Date)
}.

#[global] Instance Row_eq_dec : EqDecision Row.
Proof. solve_decision. Defined.

(** [doc.get("user_id")] and the like, on a document or on a result row. *)
Class EmailFields (A : Type) : Type := {
  get_user_id : A → pystr;
  get_personal_email : A → pystr;
  get_company_email : A → pystr
}.

#[global] Instance Employee_email_fields : EmailFields Employee :=
  {| get_user_id := emp_user_id;
     get_personal_email := emp_personal_email;
     get_company_email := emp_company_email |}.

#[global] Instance Row_email_fields : EmailFields Row :=
  {| get_user_id := user_id;
     get_personal_email := personal_email;
     get_company_email := company_email |}.

(** Modelled from the spec: [get_employee_email] is defined in
    erpnext/hr/doctype/employee/employee.py, which is not part of the
    sources at hand.  The specification gives the resolved address of an
    employee as the user email, else the personal email, else the company
    email. *)
Definition get_employee_email {A} `{EmailFields A} (employee_doc : A) : pystr :=
  or_ (get_user_id employee_doc)
      (or_ (get_personal_email employee_doc) (get_company_email employee_doc)).

Record Holiday : Type := mkHoliday { holiday_date : Date; description : string }.

(** The [recipients] argument of [frappe.sendmail]: a list of addresses, or
    one bare address (the personal mails pass [person_email] itself). *)
Inductive Recipients : Type :=
| ToList (addresses : list pystr)
| ToOne (address : pystr).

Inductive ArgVal : Type :=
| AText (s : string)
| APersons (persons : list Row).

(** One call of [frappe.sendmail]. *)
Record Mail : Type := mkMail {
  recipients : Recipients;
  subject : string;
  template : string;
  args : list (string * ArgVal);
  header : string
}.

#[global] Instance Recipients_eq_dec : EqDecision Recipients.
Proof. solve_decision. Defined.
#[global] Instance ArgVal_eq_dec : EqDecision ArgVal.
Proof. solve_decision. Defined.
#[global] Instance Mail_eq_dec : EqDecision Mail.
Proof. solve_decision. Defined.

(** Argument values of a call to the holiday store. *)
Inductive pyval : Type :=
| VNone
| VBool (b : bool)
| VStr (s : string)
| VDate (d : Date).

(** What the module does to the outside: it hands a mail to the mail
    sender, or it calls [get_holidays_for_employee] with positional and
    keyword arguments. *)
Inductive Event : Type :=
| SendMail (m : Mail)
| HolidayQuery (positional : list pyval) (keywords : list (string * pyval)).

Inductive Dialect : Type := MariaDB | Postgres.

(** The single document HR Settings: the Check fields hold an [int] or
    nothing, [frequency] a [str] or nothing. *)
Record HRSettings : Type := mkHRSettings {
  hr_send_holiday_reminders : option Z;
  hr_stop_birthday_reminders : option Z;
  hr_send_work_anniversary_reminders : option Z;
  hr_send_holiday_reminders_in_advance : option Z;
  hr_frequency : pystr
}.

(** The collaborators of one run.  [tabEmployee] (the rows in the order
    the store lists them), [settings] and the clock are read as they are;
    the functions imported from other modules and the mail sender may
    raise. *)
Record Env : Type := mkEnv {
  db_type : Dialect;
  tabEmployee : list Employee;
  settings : HRSettings;
  getdate : Date;
  translate : string → string;
  is_holiday : string → result (bool * list string);
  get_all_employee_emails : pystr → result (list pystr);
  get_holidays_for_employee :
    list pyval → list (string * pyval) → result (option (list Holiday));
  sendmail : Mail → result unit
}.

Definition mails (t : list Event) : list Mail :=
  omap (λ ev, match ev with SendMail m => Some m | HolidayQuery _ _ => None end) t.

Definition persons_of (m : Mail) : option (list Row) :=
  match args m with
  | [_; (_, APersons ps); _] => Some ps
  | _ => None
  end.

Definition text_arg (key : string) (m : Mail) : option string :=
  match List.find (λ kv, String.eqb (fst kv) key) (args m) with
  | Some (_, AText s) => Some s
  | _ => None
  end.

(** ** The module *)

Section Reminders.
Context (E : Env).

Local Notation "'_'' s" := (translate E s) (at level 10, s at level 9).

(** [frappe.sendmail(recipients=..., subject=..., template=..., args=..., header=...)] *)
Definition frappe_sendmail (m : Mail) : M Event unit :=
  emit (SendMail m);; lift (sendmail E m).

(** [frappe.db.get_all('Employee', pluck='name')]: no filter, every row. *)
Definition get_all_employee_names : list string := map emp_name (tabEmployee E).

(** [frappe.get_doc('Employee', employee)] *)
Definition get_doc (employee : string) : result Employee :=
  match List.find (λ e, bool_decide (emp_name e = employee)) (tabEmployee E) with
  | Some doc => Ok doc
  | None => Raise (DoesNotExistError employee)
  end.

(** *** Holiday reminders *)

Definition get_holiday_reminder_text_and_message (descriptions : list string)
    : string * string :=
  let description :=
    match descriptions with
    | [d] => d
    | _ => comma_and (translate E) descriptions false
    end in
  let reminder_text := _' "This email is to remind you about today's holiday." in
  let message := format (_' "Holiday is on the occassion of {0}.") [description] in
  (reminder_text, message).

Definition send_holiday_reminder_to_employee (employee : string)
    (descriptions : list string) : M Event unit :=
  let '(reminder_text, message) := get_holiday_reminder_text_and_message descriptions in
  employee_doc ← lift (get_doc employee);
  let employee_email := get_employee_email employee_doc in
  frappe_sendmail
    {| recipients := ToList [employee_email];
       subject := _' "Holiday Reminder";
       template := "holiday_reminder";
       args := [("reminder_text", AText reminder_text); ("message", AText message)];
       header := _' "Today is a holiday for you." |}.

(** The body of the loop of [send_holiday_reminders], for one [employee]. *)
Definition holiday_reminder_step (employee : string) : M Event unit :=
  '(has_holiday, holiday_descriptions) ← lift (is_holiday E employee);
  if has_holiday : bool
  then send_holiday_reminder_to_employee employee holiday_descriptions
  else ret tt.

Definition send_holiday_reminders : M Event unit :=
  let to_send := int_or (hr_send_holiday_reminders (settings E)) 1 in
  if (to_send =? 0)%Z then ret tt
  else
    let employees := get_all_employee_names in
    for_each employees holiday_reminder_step.

(** *** Birthday reminders *)

Definition get_birthday_reminder_text_and_message (birthday_persons : list Row)
    : string * string :=
  let birthday_person_text :=
    match birthday_persons with
    | [p] => name p
    | _ =>
        let person_names := map name birthday_persons in
        comma_sep (translate E) person_names (_' "{0} & {1}") false
    end in
  let reminder_text := format (_' "Today is {0}'s birthday 🎉") [birthday_person_text] in
  let message := _' "A friendly reminder of an important date for our team." in
  let message := message +:+ "<br>" in
  let message :=
    message +:+
    format (_' "Everyone, let’s congratulate {0} on their birthday.") [birthday_person_text] in
  (reminder_text, message).

Definition send_birthday_reminder (to : Recipients) (reminder_text : string)
    (birthday_persons : list Row) (message : string) : M Event unit :=
  frappe_sendmail
    {| recipients := to;
       subject := _' "Birthday Reminder";
       template := "birthday_reminder";
       args := [("reminder_text", AText reminder_text);
                ("birthday_persons", APersons birthday_persons);
                ("message", AText message)];
       header := _' "Birthday Reminder 🎂" |}.

(** [DAY(column) = DAY(today) AND MONTH(column) = MONTH(today)]; a NULL
    column matches nothing. *)
Definition same_day_and_month (column : option Date) (today : Date) : Prop :=
  match column with
  | Some d => day d = day today ∧ month d = month today
  | None => False
  end.

#[global] Instance same_day_and_month_dec column today :
  Decision (same_day_and_month column today).
Proof. destruct column; simpl; apply _. Defined.

(** The SELECT list of the query (the MariaDB text, the one that runs). *)
Definition select_row (e : Employee) : Row :=
  {| personal_email := emp_personal_email e;
     company := emp_company e;
     company_email := emp_company_email e;
     user_id := emp_user_id e;
     name := emp_employee_name e;
     image := emp_image e;
     date_of_joining := Some (emp_date_of_joining e) |}.

(** The WHERE clause of the query. *)
Definition has_event_today (condition_column : Employee → option Date)
    (e : Employee) : Prop :=
  same_day_and_month (condition_column e) (getdate E) ∧ emp_status e = "Active".

(** The rows the query selects from [tabEmployee]. *)
Definition matching_rows (condition_column : Employee → option Date) : list Row :=
  map select_row (filter (has_event_today condition_column) (tabEmployee E)).

(** [frappe.db.multisql({...}, dict(today=today(), ...), as_dict=1)] runs
    the text of the current dialect.  The postgres text names a column
    [AS 'name'], with a string literal for the alias: PostgreSQL rejects
    the statement, so on postgres the call raises and returns no row. *)
Definition multisql (condition_column : Employee → option Date) : result (list Row) :=
  match db_type E with
  | MariaDB => Ok (matching_rows condition_column)
  | Postgres => Raise (ProgrammingError "syntax error at or near 'name'")
  end.

(** [grouped_employees[key].append(doc)] on a [defaultdict(lambda: [])]:
    the dict keeps its keys in the order of their first insertion. *)
Fixpoint dict_append (key : pystr) (doc : Row) (d : list (pystr * list Row))
    : list (pystr * list Row) :=
  match d with
  | [] => [(key, [doc])]
  | (k, docs) :: rest =>
      if decide (k = key) then (k, docs ++ [doc]) :: rest
      else (k, docs) :: dict_append key doc rest
  end.

(** Returns [None], before any query, for an [event_type] other than the
    two it knows. *)
Definition get_employees_having_an_event_today (event_type : string)
    : result (option (list (pystr * list Row))) :=
  match (if decide (event_type = "birthday") then Some emp_date_of_birth
         else if decide (event_type = "work_anniversary") then Some emp_date_of_joining
         else None) with
  | None => Ok None
  | Some condition_column =>
      employees_born_today ← multisql condition_column;
      let grouped_employees :=
        foldl (λ d employee_doc, dict_append (company employee_doc) employee_doc d)
              [] employees_born_today in
      Ok (Some grouped_employees)
  end.

Definition get_employees_who_are_born_today
    : result (option (list (pystr * list Row))) :=
  get_employees_having_an_event_today "birthday".

(** [d.items()] on the value a grouping function returned. *)
Definition items (d : option (list (pystr * list Row)))
    : M Event (list (pystr * list Row)) :=
  match d with
  | Some kvs => ret kvs
  | None => raise (AttributeError "'NoneType' object has no attribute 'items'")
  end.

(** [list(set(xs) - set(ys))] *)
Definition set_difference (xs ys : list pystr) : list pystr :=
  elements ((list_to_set xs : gset pystr) ∖ list_to_set ys).

(** [person["user_id"] or person["personal_email"] or person["company_email"]] *)
Definition person_email_of (person : Row) : pystr :=
  or_ (user_id person) (or_ (personal_email person) (company_email person)).

(** The body of the inner loop of [send_birthday_reminders]: the special
    mail for one of several people sharing a birthday. *)
Definition shared_birthday_step (birthday_persons : list Row) (person : Row)
    : M Event unit :=
  let person_email := person_email_of person in
  let others := filter (λ d, d ≠ person) birthday_persons in
  let '(reminder_text, message) := get_birthday_reminder_text_and_message others in
  send_birthday_reminder (ToOne person_email) reminder_text others message.

(** The body of the outer loop, for one item of the grouping. *)
Definition birthday_reminder_step (item : pystr * list Row) : M Event unit :=
  let '(company, birthday_persons) := item in
  employee_emails ← lift (get_all_employee_emails E company);
  let birthday_person_emails := map get_employee_email birthday_persons in
  let recipients := set_difference employee_emails birthday_person_emails in
  let '(reminder_text, message) :=
    get_birthday_reminder_text_and_message birthday_persons in
  send_birthday_reminder (ToList recipients) reminder_text birthday_persons message;;
  if (1 <? length birthday_persons)%nat
  then for_each birthday_persons (shared_birthday_step birthday_persons)
  else ret tt.

Definition send_birthday_reminders : M Event unit :=
  if negb (int_or (hr_stop_birthday_reminders (settings E)) 0 =? 0)%Z then ret tt
  else
    employees_born_today ← lift get_employees_who_are_born_today;
    kvs ← items employees_born_today;
    for_each kvs birthday_reminder_step.

(** *** Work anniversary reminders *)

(** [getdate().year - person['date_of_joining'].year]: the key may be
    absent and the value may be [None]. *)
Definition completed_years_of (person : Row) : result Z :=
  match date_of_joining person with
  | None => Raise (KeyError "date_of_joining")
  | Some None => Raise (AttributeError "'NoneType' object has no attribute 'year'")
  | Some (Some joined) => Ok (year (getdate E) - year joined)
  end.

(** [person['name']] followed by [f" completed {completed_years} years"] *)
Definition person_text_with_years (person : Row) : result string :=
  let person_text := name person in
  completed_years ← completed_years_of person;
  Ok (person_text +:+ " completed " +:+ pretty completed_years +:+ " years").

Definition get_work_anniversary_reminder_text_and_message
    (anniversary_persons : list Row) : result (string * string) :=
  anniversary_person ←
    match anniversary_persons with
    | [p] => person_text_with_years p
    | _ =>
        person_names_with_years ← collect person_text_with_years anniversary_persons;
        Ok (comma_sep (translate E) person_names_with_years (_' "{0} & {1}") false)
    end;
  let reminder_text := format (_' "Today {0} at our Company! 🎉") [anniversary_person] in
  let message := _' "A friendly reminder of an important date for our team." in
  let message := message +:+ "<br>" in
  let message :=
    message +:+
    format (_' "Everyone, let’s congratulate {0} on their work anniversary!")
           [anniversary_person] in
  Ok (reminder_text, message).

Definition send_work_anniversary_reminder (to : Recipients) (reminder_text : string)
    (anniversary_persons : list Row) (message : string) : M Event unit :=
  frappe_sendmail
    {| recipients := to;
       subject := _' "Work Anniversary Reminder";
       template := "anniversary_reminder";
       args := [("reminder_text", AText reminder_text);
                ("anniversary_persons", APersons anniversary_persons);
                ("message", AText message)];
       header := _' "🎊️🎊️ Work Anniversary Reminder 🎊️🎊️" |}.

(** The body of the inner loop of [send_work_anniversary_reminders]. *)
Definition shared_work_anniversary_step (anniversary_persons : list Row)
    (person : Row) : M Event unit :=
  let person_email := person_email_of person in
  let others := filter (λ d, d ≠ person) anniversary_persons in
  '(reminder_text, message) ←
    lift (get_work_anniversary_reminder_text_and_message others);
  send_work_anniversary_reminder (ToOne person_email) reminder_text others message.

(** The body of the outer loop, for one item of the grouping. *)
Definition work_anniversary_reminder_step (item : pystr * list Row)
    : M Event unit :=
  let '(company, anniversary_persons) := item in
  employee_emails ← lift (get_all_employee_emails E company);
  let anniversary_person_emails := map get_employee_email anniversary_persons in
  let recipients := set_difference employee_emails anniversary_person_emails in
  '(reminder_text, message) ←
    lift (get_work_anniversary_reminder_text_and_message anniversary_persons);
  send_work_anniversary_reminder
    (ToList recipients) reminder_text anniversary_persons message;;
  if (1 <? length anniversary_persons)%nat
  then for_each anniversary_persons (shared_work_anniversary_step anniversary_persons)
  else ret tt.

Definition send_work_anniversary_reminders : M Event unit :=
  let to_send := int_or (hr_send_work_anniversary_reminders (settings E)) 1 in
  if (to_send =? 0)%Z then ret tt
  else
    employees_joined_today ←
      lift (get_employees_having_an_event_today "work_anniversary");
    kvs ← items employees_joined_today;
    for_each kvs work_anniversary_reminder_step.

(** *** Advance holiday reminders *)

Definition send_holidays_reminder_in_advance (employee : string)
    (holidays : list Holiday) : M Event unit :=
  ret tt.

(** The call [get_holidays_for_employee(start_date, end_date,
    only_non_weekly=True, raise_exception=False)] as the loop writes it. *)
Definition call_get_holidays_for_employee (positional : list pyval)
    (keywords : list (string * pyval)) : M Event (option (list Holiday)) :=
  emit (HolidayQuery positional keywords);;
  lift (get_holidays_for_employee E positional keywords).

(** The first part of [send_advance_holiday_reminders]: the window, or
    [None] where the function returns early. *)
Definition advance_window (frequency : string) : result (option (Date * Date)) :=
  if decide (frequency = "Weekly") then
    start_date ← add_days (getdate E) (Some 1);
    end_date ← add_days (getdate E) (Some 7);
    Ok (Some (start_date, end_date))
  else if decide (frequency = "Monthly") then
    start_date ← add_days (getdate E) None;
    let end_date := add_months (getdate E) 1 in
    Ok (Some (start_date, end_date))
  else Ok None.

(** The body of the loop of [send_advance_holiday_reminders]. *)
Definition advance_holiday_step (start_date end_date : Date) (employee : string)
    : M Event unit :=
  holidays ←
    call_get_holidays_for_employee
      [VDate start_date; VDate end_date]
      [("only_non_weekly", VBool true); ("raise_exception", VBool false)];
  match holidays with
  | Some hs => send_holidays_reminder_in_advance employee hs
  | None => ret tt
  end.

Definition send_advance_holiday_reminders (frequency : string) : M Event unit :=
  window ← lift (advance_window frequency);
  match window with
  | None => ret tt
  | Some (start_date, end_date) =>
      let employees := get_all_employee_names in
      for_each employees (advance_holiday_step start_date end_date)
  end.

Definition send_reminders_in_advance_weekly : M Event unit :=
  let to_send_in_advance :=
    int_or (hr_send_holiday_reminders_in_advance (settings E)) 1 in
  let frequency := hr_frequency (settings E) in
  if negb (negb (to_send_in_advance =? 0)%Z && bool_decide (frequency = Some "Weekly"))
  then ret tt
  else send_advance_holiday_reminders "Weekly".

Definition send_reminders_in_advance_monthly : M Event unit :=
  let to_send_in_advance :=
    int_or (hr_send_holiday_reminders_in_advance (settings E)) 1 in
  let frequency := hr_frequency (settings E) in
  if negb (negb (to_send_in_advance =? 0)%Z && bool_decide (frequency = Some "Monthly"))
  then ret tt
  else send_advance_holiday_reminders "Monthly".

End Reminders.

(** ** A concrete company, for the examples *)

Module Demo.

Definition asha : Employee :=
  mkEmployee "HR-EMP-00001" "Asha" (Some "Acme") None (Some "asha@acme.test")
    (Some "asha@acme.test") None (Some (mkDate 1990 1 15)) (Some (mkDate 2019 1 15))
    "Active".

Definition ben : Employee :=
  mkEmployee "HR-EMP-00002" "Ben" (Some "Acme") (Some "ben@home.test") None None None
    (Some (mkDate 1985 1 15)) (Some (mkDate 2020 3 1)) "Active".

Definition chen : Employee :=
  mkEmployee "HR-EMP-00003" "Chen" (Some "Acme") None (Some "chen@acme.test") None None
    (Some (mkDate 1992 7 4)) (Some (mkDate 2019 1 15)) "Active".

Definition dara : Employee :=
  mkEmployee "HR-EMP-00004" "Dara" (Some "Globex") None (Some "dara@globex.test") None
    None (Some (mkDate 1992 1 15)) (Some (mkDate 2021 6 1)) "Active".

Definition staff : list Employee := [asha; ben; chen; dara].

(** Two employees of one company whose records differ in the document
    name only: same employee name, same family address, same dates. *)
Definition sam_senior : Employee :=
  mkEmployee "HR-EMP-00011" "Sam Lee" (Some "Acme") (Some "lee@home.test") None None
    None (Some (mkDate 1970 1 15)) (Some (mkDate 2022 5 2)) "Active".

Definition sam_junior : Employee :=
  mkEmployee "HR-EMP-00012" "Sam Lee" (Some "Acme") (Some "lee@home.test") None None
    None (Some (mkDate 1970 1 15)) (Some (mkDate 2022 5 2)) "Active".

Definition namesakes : list Employee := [sam_senior; sam_junior].

(** Ben has two holidays today, Chen one, the others none. *)
Definition holidays_today (employee : string) : result (bool * list string) :=
  if String.eqb employee "HR-EMP-00002" then Ok (true, ["Founders Day"; "Harvest"])
  else if String.eqb employee "HR-EMP-00003" then Ok (true, ["Local"])
  else Ok (false, []).

Definition company_emails (company : pystr) : result (list pystr) :=
  if decide (company = Some "Acme")
  then Ok [Some "asha@acme.test"; Some "ben@home.test"; Some "chen@acme.test"]
  else if decide (company = Some "Globex") then Ok [Some "dara@globex.test"]
  else Ok [].

(** Modelled from the spec: [get_holidays_for_employee] is defined in
    erpnext/hr/utils.py, which is not part of the sources at hand.  The
    specification gives its interface as
    getHolidaysInRange(employeeId, start, end, onlyNonWeekly): the employee,
    the start and the end are its first three parameters, and all three are
    required.  A call that leaves one out raises [TypeError]. *)
Definition holidays_in_range (positional : list pyval)
    (keywords : list (string * pyval)) : result (option (list Holiday)) :=
  match positional with
  | [] | [_] | [_; _] =>
      Raise (TypeError "get_holidays_for_employee() missing required positional arguments")
  | VStr _ :: VDate _ :: VDate _ :: _ => Ok (Some [])
  | _ => Raise (TypeError "unsupported argument types")
  end.

Definition env (db : Dialect) (s : HRSettings) (table : list Employee) : Env :=
  {| db_type := db;
     tabEmployee := table;
     settings := s;
     getdate := mkDate 2024 1 15;
     translate := id;
     is_holiday := holidays_today;
     get_all_employee_emails := company_emails;
     get_holidays_for_employee := holidays_in_range;
     sendmail := λ _, Ok tt |}.

(** A holiday store that fails for the first employee of [staff] and
    answers for the others. *)
Definition holidays_today_failing (employee : string) : result (bool * list string) :=
  if String.eqb employee "HR-EMP-00001"
  then Raise (CollaboratorError "holiday list lookup failed")
  else holidays_today employee.

Definition env_failing (s : HRSettings) (table : list Employee) : Env :=
  {| db_type := MariaDB;
     tabEmployee := table;
     settings := s;
     getdate := mkDate 2024 1 15;
     translate := id;
     is_holiday := holidays_today_failing;
     get_all_employee_emails := company_emails;
     get_holidays_for_employee := holidays_in_range;
     sendmail := λ _, Ok tt |}.

(** Every flag present and set to [v]. *)
Definition flags (v : Z) (frequency : string) : HRSettings :=
  mkHRSettings (Some v) (Some v) (Some v) (Some v) (Some frequency).

End Demo.

(** ** Vocabulary of the statements *)

(** What it means for a dict [d] to group [rows] by company: its keys are
    distinct, the value under a key is the list of the rows of that
    company, in their order and not empty, and every row has its company
    among the keys. *)
Definition grouped_by_company (rows : list Row) (d : list (pystr * list Row)) : Prop :=
  NoDup (map fst d)
  ∧ (∀ k docs, (k, docs) ∈ d → docs ≠ [] ∧ docs = filter (λ r, company r = k) rows)
  ∧ (∀ r, r ∈ rows → company r ∈ map fst d).

(** The text the message carries for one person who joined on [joined],
    when the current year is [current_year]. *)
Definition completed_text (current_year : Z) (person : Row) (joined : Date) : string :=
  name person +:+ " completed " +:+ pretty (current_year - year joined) +:+ " years".

(** The mail [send_holiday_reminder_to_employee] composes for a document. *)
Definition holiday_mail (E : Env) (doc : Employee) (descriptions : list string) : Mail :=
  {| recipients := ToList [get_employee_email doc];
     subject := translate E "Holiday Reminder";
     template := "holiday_reminder";
     args := [("reminder_text",
               AText (get_holiday_reminder_text_and_message E descriptions).1);
              ("message",
               AText (get_holiday_reminder_text_and_message E descriptions).2)];
     header := translate E "Today is a holiday for you." |}.

(** The mail [send_birthday_reminder] hands over for given recipients and
    persons, with the text [get_birthday_reminder_text_and_message] makes
    for these persons. *)
Definition birthday_mail (E : Env) (to : Recipients) (persons : list Row) : Mail :=
  {| recipients := to;
     subject := translate E "Birthday Reminder";
     template := "birthday_reminder";
     args := [("reminder_text",
               AText (get_birthday_reminder_text_and_message E persons).1);
              ("birthday_persons", APersons persons);
              ("message",
               AText (get_birthday_reminder_text_and_message E persons).2)];
     header := translate E "Birthday Reminder 🎂" |}.

(** The special mail for [person], one of [persons]. *)
Definition shared_birthday_mail (E : Env) (persons : list Row) (person : Row) : Mail :=
  birthday_mail E (ToOne (person_email_of person)) (filter (λ d, d ≠ person) persons).

(** The group mail of a company whose employees have the addresses [audience]. *)
Definition group_birthday_mail (E : Env) (audience : list pystr) (persons : list Row)
    : Mail :=
  birthday_mail E (ToList (set_difference audience (map get_employee_email persons)))
                persons.

(** The addresses [get_all_employee_emails] returns for a company. *)
Definition audience_of (E : Env) (company : pystr) : list pystr :=
  match get_all_employee_emails E company with
  | Ok emails => emails
  | Raise _ => []
  end.

(** All the mails of one item of the grouping. *)
Definition birthday_mails_of (E : Env) (item : pystr * list Row) : list Mail :=
  group_birthday_mail E (audience_of E item.1) item.2
  :: (if (1 <? length item.2)%nat
      then map (shared_birthday_mail E item.2) item.2
      else []).

(** The grouping of today's birthday rows, as [.items()] lists it. *)
Definition birthday_groups (E : Env) : list (pystr * list Row) :=
  foldl (λ d employee_doc, dict_append (company employee_doc) employee_doc d)
        [] (matching_rows E emp_date_of_birth).

(** The birthday flag leaves the reminders on when it is missing or 0. *)
Definition birthday_reminders_on (E : Env) : Prop :=
  hr_stop_birthday_reminders (settings E) = None
  ∨ hr_stop_birthday_reminders (settings E) = Some 0.

(** The rows the query returns for Asha and for Ben of the example, on
    MariaDB. *)
Definition asha_row : Row :=
  mkRow None (Some "Acme") (Some "asha@acme.test") (Some "asha@acme.test") "Asha" None
        (Some (Some (mkDate 2019 1 15))).

Definition ben_row : Row :=
  mkRow (Some "ben@home.test") (Some "Acme") None None "Ben" None
        (Some (Some (mkDate 2020 3 1))).

(** The grouping of today's work-anniversary rows, as [.items()] lists it. *)
Definition anniversary_groups (E : Env) : list (pystr * list Row) :=
  foldl (λ d employee_doc, dict_append (company employee_doc) employee_doc d)
        [] (matching_rows E emp_date_of_joining).

(** The environment [E] with the HR Settings [s] in place of its own. *)
Definition with_settings (s : HRSettings) (E : Env) : Env :=
  {| db_type := db_type E;
     tabEmployee := tabEmployee E;
     settings := s;
     getdate := getdate E;
     translate := translate E;
     is_holiday := is_holiday E;
     get_all_employee_emails := get_all_employee_emails E;
     get_holidays_for_employee := get_holidays_for_employee E;
     sendmail := sendmail E |}.

(** The environment [E] with a mail sender that refuses every mail. *)
Definition refusing_sender (E : Env) : Env :=
  {| db_type := db_type E;
     tabEmployee := tabEmployee E;
     settings := settings E;
     getdate := getdate E;
     translate := translate E;
     is_holiday := is_holiday E;
     get_all_employee_emails := get_all_employee_emails E;
     get_holidays_for_employee := get_holidays_for_employee E;
     sendmail := λ _, Raise (CollaboratorError "mail queue is down") |}.

(** No translation is loaded: [_] returns its argument. *)
Definition untranslated (E : Env) : Prop := ∀ s, translate E s = s.

(** The number of mails for a group of [n] persons: the group mail, and
    one more for each person when they are several. *)
Definition mails_for_group (n : nat) : nat := if (1 <? n)%nat then S n else 1%nat.

(** The query every iteration of the Weekly run makes. *)
Definition weekly_query (E : Env) : Event :=
  HolidayQuery
    [VDate (plus_days (getdate E) 1); VDate (plus_days (getdate E) 7)]
    [("only_non_weekly", VBool true); ("raise_exception", VBool false)].

(** [", ".join(xs[:-1])], the pattern's joining word, and [xs[-1]]: what
    [comma_sep] makes of two or more strings when nothing is translated. *)
Definition joined_with (word : string) (xs : list string) : string :=
  match xs with
  | [] => ""
  | [x] => x
  | _ => join ", " (removelast xs) +:+ word +:+ List.last xs ""
  end.

(** ** Laws of the effect layer *)

Section EffectLaws.
Context {Ev : Type}.
Implicit Types (t : list Ev).

Lemma bind_ok {A B} t (a : A) (k : A → M Ev B) :
  (t, Ok a) ≫= k = (t ++ (k a).1, (k a).2).
Proof. unfold mbind, M_bind, bind. by destruct (k a). Qed.

Lemma bind_raise {A B} t e (k : A → M Ev B) :
  ((t, Raise e) : M Ev A) ≫= k = (t, Raise e).
Proof. done. Qed.

Lemma bind_lift_ok {A B} (a : A) (k : A → M Ev B) : lift (Ok a) ≫= k = k a.
Proof. unfold lift. rewrite bind_ok. by destruct (k a). Qed.

Lemma bind_lift_raise {A B} e (k : A → M Ev B) :
  lift (Raise e : result A) ≫= k = ([], Raise e).
Proof. done. Qed.

(** A loop none of whose iterations raises runs them all. *)
Lemma for_each_ok {A} (xs : list A) (body : A → M Ev unit) :
  (∀ x, x ∈ xs → (body x).2 = Ok tt) →
  for_each xs body = (concat (map (λ x, (body x).1) xs), Ok tt).
Proof.
  induction xs as [|x xs IH]; intros Hok; [done|].
  simpl. destruct (body x) as [t r] eqn:Hx.
  assert (r = Ok tt) as ->.
  { specialize (Hok x). rewrite Hx in Hok. apply Hok. left. }
  rewrite bind_ok, IH; [done|].
  intros y Hy. apply Hok. by right.
Qed.

(** An iteration that raises ends the loop: what came before stays, what
    comes after is not run. *)
Lemma for_each_raise {A} (before after : list A) x e (body : A → M Ev unit) :
  (∀ y, y ∈ before → (body y).2 = Ok tt) →
  (body x).2 = Raise e →
  for_each (before ++ x :: after) body =
    (concat (map (λ y, (body y).1) before) ++ (body x).1, Raise e).
Proof.
  induction before as [|y before IH]; intros Hok Hx.
  - simpl. destruct (body x) as [t r]. simpl in *. subst r. done.
  - simpl. destruct (body y) as [t r] eqn:Hy.
    assert (r = Ok tt) as ->.
    { specialize (Hok y). rewrite Hy in Hok. apply Hok. left. }
    rewrite bind_ok, IH; [|intros z Hz; apply Hok; by right|done].
    simpl. by rewrite <- (assoc_L (++)).
Qed.

(** Whatever holds of every call of every iteration holds of every call
    of the loop, whether it ends normally or not. *)
Lemma for_each_trace_Forall {A} (P : Ev → Prop) (xs : list A) (body : A → M Ev unit) :
  (∀ x, x ∈ xs → Forall P (body x).1) → Forall P (for_each xs body).1.
Proof.
  induction xs as [|x xs IH]; intros HP; [by constructor|].
  cbn [for_each]. pose proof (HP x ltac:(left)) as Hx.
  destruct (body x) as [t [[]|e]]; [|done].
  rewrite bind_ok. apply Forall_app. split; [done|].
  apply IH. intros y Hy. apply HP. by right.
Qed.

End EffectLaws.

(** ** The framework utilities on examples *)

Example plus_days_leap : plus_days (mkDate 2024 2 28) 2 = mkDate 2024 3 1.
Proof. reflexivity. Qed.

Example plus_days_year_end : plus_days (mkDate 2023 12 29) 7 = mkDate 2024 1 5.
Proof. reflexivity. Qed.

Example add_months_clips : add_months (mkDate 2024 1 31) 1 = mkDate 2024 2 29.
Proof. reflexivity. Qed.

Example comma_sep_three :
  comma_sep id ["Jim"; "Rim"; "Dim"] "{0} & {1}" false = "Jim, Rim & Dim".
Proof. reflexivity. Qed.

(** ** Advance holiday reminders: the stub, the window, the query *)

(** C9.  [send_holidays_reminder_in_advance] does nothing: for every
    employee and every list of holidays it makes no call at all (no mail,
    no query) and returns normally with [None]. *)
Theorem send_holidays_reminder_in_advance_noop employee holidays :
  trace (send_holidays_reminder_in_advance employee holidays) = []
  ∧ mails (trace (send_holidays_reminder_in_advance employee holidays)) = []
  ∧ outcome (send_holidays_reminder_in_advance employee holidays) = Ok tt.
Proof. done. Qed.

(** The Weekly window is [today + 1 day, today + 7 days]. *)
Lemma advance_window_weekly E :
  advance_window E "Weekly"
  = Ok (Some (plus_days (getdate E) 1, plus_days (getdate E) 7)).
Proof. done. Qed.

Example advance_window_weekly_reference s table :
  advance_window (Demo.env MariaDB s table) "Weekly"
  = Ok (Some (mkDate 2024 1 16, mkDate 2024 1 22)).
Proof. reflexivity. Qed.

(** Any other frequency than the two names returns before the loop. *)
Lemma advance_window_other E frequency :
  frequency ≠ "Weekly" → frequency ≠ "Monthly" → advance_window E frequency = Ok None.
Proof. intros H1 H2. unfold advance_window. by rewrite !decide_False. Qed.

(** C6, at the frequency where the code departs from it.  For "Monthly"
    the start of the window is computed by [add_days(getdate())], a call
    without the required [days]: it raises [TypeError] before any window
    exists, so the function makes no call and ends with that exception,
    whatever the date, the settings and the employees are. *)
Theorem send_advance_holiday_reminders_monthly_raises E :
  advance_window E "Monthly"
  = Raise (TypeError "add_days() missing 1 required positional argument: 'days'")
  ∧ send_advance_holiday_reminders E "Monthly"
    = ([], Raise (TypeError "add_days() missing 1 required positional argument: 'days'")).
Proof. done. Qed.

(** Every call the Weekly run makes is a holiday query whose positional
    arguments are the two dates of the window and nothing else: the
    employee of the iteration is not among the arguments. *)
Lemma advance_queries_carry_no_employee E :
  Forall (λ ev,
            ev = HolidayQuery
                   [VDate (plus_days (getdate E) 1); VDate (plus_days (getdate E) 7)]
                   [("only_non_weekly", VBool true); ("raise_exception", VBool false)])
         (trace (send_advance_holiday_reminders E "Weekly")).
Proof.
  unfold send_advance_holiday_reminders. rewrite advance_window_weekly, bind_lift_ok.
  apply for_each_trace_Forall. intros employee _.
  unfold advance_holiday_step, call_get_holidays_for_employee, emit.
  rewrite bind_ok. simpl.
  destruct (get_holidays_for_employee E _ _) as [[hs|]|e]; simpl; repeat constructor.
Qed.

(** C7, at an input where the code departs from it.  With the employees
    of the example listed, the Weekly run issues one query, for the first
    employee of the listing; its arguments are the two dates, the employee
    "HR-EMP-00001" is not passed, and the holiday store, which requires the
    employee, the start and the end, rejects the call.  The run ends there. *)
Theorem send_advance_holiday_reminders_query_without_employee :
  get_all_employee_names (Demo.env MariaDB (Demo.flags 1 "Weekly") Demo.staff)
  = ["HR-EMP-00001"; "HR-EMP-00002"; "HR-EMP-00003"; "HR-EMP-00004"]
  ∧ send_advance_holiday_reminders
      (Demo.env MariaDB (Demo.flags 1 "Weekly") Demo.staff) "Weekly"
    = ([HolidayQuery
          [VDate (mkDate 2024 1 16); VDate (mkDate 2024 1 22)]
          [("only_non_weekly", VBool true); ("raise_exception", VBool false)]],
       Raise (TypeError
                "get_holidays_for_employee() missing required positional arguments")).
Proof. split; reflexivity. Qed.

(** ** Grouping by company *)

Lemma filter_none {A} (P : A → Prop) `{∀ x, Decision (P x)} (l : list A) :
  (∀ x, x ∈ l → ¬ P x) → filter P l = [].
Proof.
  induction l as [|x l IH]; intros Hno; [done|].
  rewrite filter_cons_False; [|apply Hno; left].
  apply IH. intros y Hy. apply Hno. by right.
Qed.

Lemma elem_of_concat {A} (x : A) (ls : list (list A)) :
  x ∈ concat ls → ∃ l, l ∈ ls ∧ x ∈ l.
Proof.
  induction ls as [|l ls IH]; simpl; [by intros ?%elem_of_nil|].
  intros [Hx|Hx]%elem_of_app.
  - exists l. split; [left|done].
  - destruct (IH Hx) as (l' & Hl' & Hx'). exists l'. split; [by right|done].
Qed.

Lemma filter_all {A} (P : A → Prop) `{∀ x, Decision (P x)} (l : list A) :
  (∀ x, x ∈ l → P x) → filter P l = l.
Proof.
  induction l as [|x l IH]; intros Hall; [done|].
  rewrite filter_cons_True; [|apply Hall; left].
  f_equal. apply IH. intros y Hy. apply Hall. by right.
Qed.

(** Removing an element that occurs once shortens the list by one. *)
Lemma length_filter_ne `{EqDecision A} (l : list A) x :
  NoDup l → x ∈ l → length (filter (λ y, y ≠ x) l) = (length l - 1)%nat.
Proof.
  induction l as [|a l IH]; intros Hnd Hx; [by apply elem_of_nil in Hx|].
  apply NoDup_cons in Hnd as [Ha Hnd].
  destruct (decide (a = x)) as [->|Hne].
  - rewrite filter_cons_False; [|by intros ?].
    rewrite filter_all; [simpl; lia|]. by intros y Hy ->.
  - rewrite filter_cons_True; [|done].
    apply elem_of_cons in Hx as [->|Hx]; [done|].
    simpl. rewrite IH; [|done..]. destruct l; [by apply elem_of_nil in Hx|simpl; lia].
Qed.

(** In the image of a list without repetition, under a function that
    tells [x] apart from the rest, [f x] occurs once. *)
Lemma filter_map_unique {A B} `{EqDecision B} (f : A → B) (l : list A) x :
  NoDup l → x ∈ l → (∀ y, y ∈ l → f y = f x → y = x) →
  filter (λ b, b = f x) (map f l) = [f x].
Proof.
  induction l as [|a l IH]; intros Hnd Hx Hinj; [by apply elem_of_nil in Hx|].
  apply NoDup_cons in Hnd as [Ha Hnd]. cbn [map].
  destruct (decide (f a = f x)) as [Heq|Hne].
  - assert (a = x) as -> by (apply Hinj; [left|done]).
    rewrite filter_cons_True; [|done]. f_equal. apply filter_none.
    intros b (y & -> & Hy)%list_elem_of_fmap Hy'.
    apply Ha. rewrite <- (Hinj y); [done|by right|done].
  - apply elem_of_cons in Hx as [->|Hx]; [done|].
    rewrite filter_cons_False; [|done].
    apply IH; [done..|]. intros y Hy. apply Hinj. by right.
Qed.

Lemma dict_append_keys key doc d :
  map fst (dict_append key doc d)
  = if decide (key ∈ map fst d) then map fst d else map fst d ++ [key].
Proof.
  induction d as [|[k docs] d IH].
  - destruct (decide (key ∈ map fst [])) as [Hin|_]; [|done].
    by apply elem_of_nil in Hin.
  - cbn [dict_append]. destruct (decide (k = key)) as [->|Hne].
    + rewrite decide_True; [done|]. left.
    + cbn [map fst]. rewrite IH. destruct (decide (key ∈ map fst d)) as [Hin|Hout].
      * rewrite decide_True; [done|]. by right.
      * rewrite decide_False; [done|].
        intros [?|?]%elem_of_cons; [congruence|contradiction].
Qed.

Lemma elem_of_dict_append key doc d k docs :
  NoDup (map fst d) →
  (k, docs) ∈ dict_append key doc d →
  (k ≠ key ∧ (k, docs) ∈ d)
  ∨ (k = key ∧ ∃ old, docs = old ++ [doc]
                      ∧ ((key, old) ∈ d ∨ (old = [] ∧ key ∉ map fst d))).
Proof.
  induction d as [|[k0 docs0] d IH]; simpl; intros Hnd Hin.
  - apply list_elem_of_singleton in Hin. injection Hin as -> ->.
    right. split; [done|]. exists []. split; [done|]. right. split; [done|].
    by intros ?%elem_of_nil.
  - apply NoDup_cons in Hnd as [Hk0 Hnd].
    destruct (decide (k0 = key)) as [->|Hne].
    + apply elem_of_cons in Hin as [Heq|Hin].
      * injection Heq as -> ->. right. split; [done|].
        exists docs0. split; [done|]. left. left.
      * left. split; [|by right].
        intros ->. apply Hk0. apply list_elem_of_fmap. by exists (key, docs).
    + apply elem_of_cons in Hin as [Heq|Hin].
      * injection Heq as -> ->. left. split; [done|left].
      * destruct (IH Hnd Hin) as [[? ?]|[-> (old & -> & Hold)]].
        -- left. split; [done|by right].
        -- right. split; [done|]. exists old. split; [done|].
           destruct Hold as [?|[-> Hout]]; [left; by right|right].
           split; [done|]. intros [?|?]%elem_of_cons; [congruence|contradiction].
Qed.

Lemma grouped_by_company_snoc rows d r :
  grouped_by_company rows d →
  grouped_by_company (rows ++ [r]) (dict_append (company r) r d).
Proof.
  intros (Hnd & Hval & Hkeys). split; [|split].
  - rewrite dict_append_keys. case_decide; [done|].
    apply NoDup_app. split; [done|]. split; [|apply NoDup_singleton].
    intros k Hk ->%list_elem_of_singleton. done.
  - intros k docs Hin. rewrite filter_app.
    apply elem_of_dict_append in Hin as [[Hne Hin]|[-> (old & -> & Hold)]]; [|  |done].
    + destruct (Hval _ _ Hin) as [? ->]. split; [done|].
      rewrite (filter_cons_False _ r); [|congruence]. by rewrite filter_nil, app_nil_r.
    + split; [by destruct old|].
      rewrite (filter_cons_True _ r); [|done]. rewrite filter_nil. f_equal.
      destruct Hold as [Hin|[-> Hout]]; [by apply Hval|].
      symmetry. apply filter_none.
      intros r' Hr' Hc. apply Hout. rewrite <- Hc. by apply Hkeys.
  - intros r' Hr'. rewrite dict_append_keys.
    apply elem_of_app in Hr' as [Hr'|Hr'].
    + case_decide; [|apply elem_of_app; left]; by apply Hkeys.
    + apply list_elem_of_singleton in Hr' as ->.
      case_decide; [done|]. apply elem_of_app. right. left.
Qed.

Lemma grouped_by_company_foldl rows :
  grouped_by_company rows
    (foldl (λ d employee_doc, dict_append (company employee_doc) employee_doc d) [] rows).
Proof.
  induction rows as [|r rows IH] using rev_ind.
  - split; [constructor|]. split; [by intros ?? ?%elem_of_nil|by intros ? ?%elem_of_nil].
  - rewrite foldl_snoc. by apply grouped_by_company_snoc.
Qed.

(** In a grouping every record sits under its own company and nowhere else. *)
Lemma grouped_by_company_own_key rows d k docs r :
  grouped_by_company rows d → (k, docs) ∈ d → r ∈ docs → company r = k ∧ r ∈ rows.
Proof.
  intros (_ & Hval & _) Hin Hr. destruct (Hval _ _ Hin) as [_ ->].
  by apply list_elem_of_filter in Hr.
Qed.

Lemma grouped_by_company_lookup rows d r :
  grouped_by_company rows d → r ∈ rows →
  ∃ docs, (company r, docs) ∈ d ∧ r ∈ docs.
Proof.
  intros (_ & Hval & Hkeys) Hr.
  destruct (proj1 (list_elem_of_fmap _ _ _) (Hkeys _ Hr)) as ([k docs] & Hk & Hin).
  simpl in Hk. subst k. exists docs. split; [done|].
  destruct (Hval _ _ Hin) as [_ ->]. by apply list_elem_of_filter.
Qed.

(** The query returns on MariaDB, with the rows the WHERE clause selects;
    it returns nowhere else. *)
Lemma multisql_mariadb E column :
  db_type E = MariaDB → multisql E column = Ok (matching_rows E column).
Proof. intros Hdb. unfold multisql. by rewrite Hdb. Qed.

Lemma multisql_returned E column rows :
  multisql E column = Ok rows →
  db_type E = MariaDB ∧ rows = matching_rows E column.
Proof. unfold multisql. destruct (db_type E); [by intros [= <-]|done]. Qed.

Lemma multisql_postgres E column :
  db_type E = Postgres →
  multisql E column = Raise (ProgrammingError "syntax error at or near 'name'").
Proof. intros Hdb. unfold multisql. by rewrite Hdb. Qed.

Lemma born_today_mariadb E :
  db_type E = MariaDB →
  get_employees_who_are_born_today E = Ok (Some (birthday_groups E)).
Proof.
  intros Hdb. unfold get_employees_who_are_born_today,
    get_employees_having_an_event_today, multisql.
  rewrite Hdb. reflexivity.
Qed.

Lemma born_today_returned E d :
  get_employees_who_are_born_today E = Ok (Some d) →
  db_type E = MariaDB ∧ d = birthday_groups E.
Proof.
  unfold get_employees_who_are_born_today, get_employees_having_an_event_today,
    multisql.
  destruct (db_type E); [|discriminate].
  intros Hd. split; [done|]. by injection Hd as <-.
Qed.

Lemma joined_today_mariadb E :
  db_type E = MariaDB →
  get_employees_having_an_event_today E "work_anniversary"
  = Ok (Some (anniversary_groups E)).
Proof.
  intros Hdb. unfold get_employees_having_an_event_today, multisql.
  rewrite Hdb. reflexivity.
Qed.

Lemma joined_today_returned E d :
  get_employees_having_an_event_today E "work_anniversary" = Ok (Some d) →
  db_type E = MariaDB ∧ d = anniversary_groups E.
Proof.
  unfold get_employees_having_an_event_today, multisql.
  destruct (db_type E); [|discriminate].
  intros Hd. split; [done|]. by injection Hd as <-.
Qed.

(** C10.  For "birthday" and for "work_anniversary", a mapping the
    function returns groups the rows the query returned by company: every
    record of the mapping is under the key equal to its own company field,
    the keys are distinct, so a record is in exactly one group, and every
    row found is in the mapping.  For every other event type the function
    returns [None], not an empty mapping.  On MariaDB, where the query
    runs, the function does return a mapping for both event types. *)
Theorem get_employees_having_an_event_today_groups E :
  (∀ d, get_employees_having_an_event_today E "birthday" = Ok (Some d) →
        ∃ rows, multisql E emp_date_of_birth = Ok rows
                ∧ grouped_by_company rows d
                ∧ ∀ k docs r, (k, docs) ∈ d → r ∈ docs → company r = k)
  ∧ (∀ d, get_employees_having_an_event_today E "work_anniversary" = Ok (Some d) →
          ∃ rows, multisql E emp_date_of_joining = Ok rows
                  ∧ grouped_by_company rows d
                  ∧ ∀ k docs r, (k, docs) ∈ d → r ∈ docs → company r = k)
  ∧ (∀ event_type,
       event_type ≠ "birthday" → event_type ≠ "work_anniversary" →
       get_employees_having_an_event_today E event_type = Ok None)
  ∧ (db_type E = MariaDB →
     (∃ d, get_employees_having_an_event_today E "birthday" = Ok (Some d))
     ∧ (∃ d, get_employees_having_an_event_today E "work_anniversary" = Ok (Some d))).
Proof.
  split; [|split; [|split]].
  - intros d [Hdb ->]%born_today_returned.
    exists (matching_rows E emp_date_of_birth).
    split; [by apply multisql_mariadb|].
    pose proof (grouped_by_company_foldl (matching_rows E emp_date_of_birth)) as Hg.
    split; [done|]. intros k docs r Hin Hr.
    by destruct (grouped_by_company_own_key _ _ _ _ _ Hg Hin Hr).
  - intros d [Hdb ->]%joined_today_returned.
    exists (matching_rows E emp_date_of_joining).
    split; [by apply multisql_mariadb|].
    pose proof (grouped_by_company_foldl (matching_rows E emp_date_of_joining)) as Hg.
    split; [done|]. intros k docs r Hin Hr.
    by destruct (grouped_by_company_own_key _ _ _ _ _ Hg Hin Hr).
  - intros event_type H1 H2. unfold get_employees_having_an_event_today.
    by rewrite !decide_False.
  - intros Hdb. split; eexists.
    + by apply born_today_mariadb.
    + by apply joined_today_mariadb.
Qed.

Lemma get_employees_having_an_event_today_groups_witness :
  get_employees_having_an_event_today
    (Demo.env MariaDB (Demo.flags 1 "Weekly") Demo.staff) "holiday" = Ok None.
Proof.
  apply (proj1 (proj2 (proj2 (get_employees_having_an_event_today_groups
                                (Demo.env MariaDB (Demo.flags 1 "Weekly") Demo.staff))))).
  - discriminate.
  - discriminate.
Defined.

(** ** Work anniversaries: the years completed *)

Lemma person_text_with_years_joined E person joined :
  date_of_joining person = Some (Some joined) →
  person_text_with_years E person
  = Ok (completed_text (year (getdate E)) person joined).
Proof.
  intros Hj. unfold person_text_with_years, completed_years_of. by rewrite Hj.
Qed.

Lemma collect_person_texts E persons joined :
  Forall2 (λ p d, date_of_joining p = Some (Some d)) persons joined →
  collect (person_text_with_years E) persons
  = Ok (zip_with (completed_text (year (getdate E))) persons joined).
Proof.
  induction 1 as [|p d persons joined Hp _ IH]; [done|].
  simpl. by rewrite (person_text_with_years_joined _ _ _ Hp), IH.
Qed.

(** For a row without the key there is no message: building the text
    raises [KeyError]. *)
Lemma work_anniversary_text_without_key E person :
  date_of_joining person = None →
  get_work_anniversary_reminder_text_and_message E [person]
  = Raise (KeyError "date_of_joining").
Proof.
  intros Hk. unfold get_work_anniversary_reminder_text_and_message,
    person_text_with_years, completed_years_of. by rewrite Hk.
Qed.

(** On postgres the run ends at the query, before any mail. *)
Example work_anniversary_on_postgres :
  send_work_anniversary_reminders
    (Demo.env Postgres (Demo.flags 1 "Weekly") Demo.staff)
  = ([], Raise (ProgrammingError "syntax error at or near 'name'")).
Proof. reflexivity. Qed.

(** C5.  In a work-anniversary message every person is written as the
    name followed by " completed N years" where N is the current year
    minus the year of the person's date of joining; the texts of several
    persons are joined by [comma_sep].  Someone who joined in 2019 is
    written with "completed 5 years" in 2024. *)
Theorem work_anniversary_years_completed E persons joined :
  Forall2 (λ p d, date_of_joining p = Some (Some d)) persons joined →
  let who :=
    comma_sep (translate E)
      (zip_with (λ p d, name p +:+ " completed "
                          +:+ pretty (year (getdate E) - year d) +:+ " years")
                persons joined)
      (translate E "{0} & {1}") false in
  get_work_anniversary_reminder_text_and_message E persons
  = Ok (format (translate E "Today {0} at our Company! 🎉") [who],
        (translate E "A friendly reminder of an important date for our team."
         +:+ "<br>")
        +:+ format (translate E
                      "Everyone, let’s congratulate {0} on their work anniversary!")
                   [who])
  ∧ (∀ p d, persons = [p] → joined = [d] →
            year (getdate E) = 2024 → year d = 2019 →
            who = name p +:+ " completed 5 years").
Proof.
  intros Hj who. split.
  - unfold get_work_anniversary_reminder_text_and_message.
    pose proof (collect_person_texts E _ _ Hj) as Hc.
    destruct Hj as [|p d persons joined Hp Hrest]; [reflexivity|].
    destruct Hrest as [|p' d' persons joined Hp' Hrest].
    + rewrite (person_text_with_years_joined _ _ _ Hp). reflexivity.
    + rewrite Hc. reflexivity.
  - intros p d -> -> Hcy Hd. subst who. cbn [zip_with comma_sep].
    rewrite Hcy, Hd. reflexivity.
Qed.

Lemma work_anniversary_years_completed_witness :
  get_work_anniversary_reminder_text_and_message
    (Demo.env MariaDB (Demo.flags 1 "Weekly") Demo.staff) [asha_row]
  = Ok ("Today Asha completed 5 years at our Company! 🎉",
        "A friendly reminder of an important date for our team.<br>"
        +:+ "Everyone, let’s congratulate Asha completed 5 years on their work anniversary!").
Proof.
  apply (proj1 (work_anniversary_years_completed
                  (Demo.env MariaDB (Demo.flags 1 "Weekly") Demo.staff)
                  [asha_row] [mkDate 2019 1 15]
                  ltac:(repeat constructor))).
Defined.

(** ** The settings flags *)

Lemma mails_app t1 t2 : mails (t1 ++ t2) = mails t1 ++ mails t2.
Proof. apply omap_app. Qed.

Lemma mails_SendMail ms : mails (map SendMail ms) = ms.
Proof. induction ms as [|m ms IH]; [done|]. simpl. by f_equal. Qed.

Lemma mails_of_queries t :
  Forall (λ ev, ∃ positional keywords, ev = HolidayQuery positional keywords) t →
  mails t = [].
Proof. induction 1 as [|ev t (p & k & ->) _ IH]; [done|]. exact IH. Qed.

(** The advance run only ever queries the holiday store. *)
Lemma advance_trace_queries E frequency :
  Forall (λ ev, ∃ positional keywords, ev = HolidayQuery positional keywords)
         (trace (send_advance_holiday_reminders E frequency)).
Proof.
  unfold send_advance_holiday_reminders.
  destruct (advance_window E frequency) as [[[start_date end_date]|]|e];
    [|by constructor..].
  rewrite bind_lift_ok. apply for_each_trace_Forall. intros employee _.
  unfold advance_holiday_step, call_get_holidays_for_employee, emit.
  rewrite bind_ok. simpl.
  destruct (get_holidays_for_employee E _ _) as [[hs|]|e]; simpl;
    repeat constructor; by eexists _, _.
Qed.

(** [int(value or 1)] is never 0 for a flag that is an [int] or missing:
    the value 0 is falsy and is replaced by the default. *)
Lemma int_or_1_nonzero v : int_or v 1 ≠ 0.
Proof.
  destruct v as [z|]; simpl; [|done].
  destruct (Z.eqb_spec z 0); [done|done].
Qed.

(** C1, as the code has it by design.  The birthday flag is a stop flag:
    set to a non-zero value it ends the run before anything is read or
    sent.  The advance-holiday runs hand no mail to the mail sender,
    whatever their flag and the frequency are. *)
Theorem disabled_reminders_send_nothing E :
  (∀ z, hr_stop_birthday_reminders (settings E) = Some z → z ≠ 0 →
        send_birthday_reminders E = ([], Ok tt))
  ∧ mails (trace (send_reminders_in_advance_weekly E)) = []
  ∧ mails (trace (send_reminders_in_advance_monthly E)) = []
  ∧ (∀ frequency, mails (trace (send_advance_holiday_reminders E frequency)) = []).
Proof.
  split; [|split; [|split]].
  - intros z Hz Hnz. unfold send_birthday_reminders. rewrite Hz. simpl.
    destruct (Z.eqb_spec z 0); [done|].
    by rewrite (proj2 (Z.eqb_neq z 0) n).
  - unfold send_reminders_in_advance_weekly.
    destruct (negb _); [done|]. apply mails_of_queries, advance_trace_queries.
  - unfold send_reminders_in_advance_monthly.
    destruct (negb _); [done|]. apply mails_of_queries, advance_trace_queries.
  - intros frequency. apply mails_of_queries, advance_trace_queries.
Qed.

Lemma disabled_reminders_send_nothing_witness :
  send_birthday_reminders (Demo.env MariaDB (Demo.flags 1 "Weekly") Demo.staff)
  = ([], Ok tt).
Proof.
  apply (proj1 (disabled_reminders_send_nothing
                  (Demo.env MariaDB (Demo.flags 1 "Weekly") Demo.staff)) 1).
  - reflexivity.
  - lia.
Defined.

(** C1 as stated fails for the birthday flag: with
    [stop_birthday_reminders = 0] the run of the example sends four
    birthday mails. *)
Lemma birthday_flag_zero_sends :
  hr_stop_birthday_reminders
    (settings (Demo.env MariaDB (Demo.flags 0 "Weekly") Demo.staff)) = Some 0
  ∧ length (mails (trace (send_birthday_reminders
                            (Demo.env MariaDB (Demo.flags 0 "Weekly") Demo.staff))))
    = 4%nat.
Proof. split; reflexivity. Qed.

(** The holiday and the work-anniversary flags are read through
    [int(value or 1)]: the value 0 turns into 1 and the run goes on. *)
Lemma holiday_flag_zero_sends :
  hr_send_holiday_reminders
    (settings (Demo.env MariaDB (Demo.flags 0 "Weekly") Demo.staff)) = Some 0
  ∧ length (mails (trace (send_holiday_reminders
                            (Demo.env MariaDB (Demo.flags 0 "Weekly") Demo.staff))))
    = 2%nat.
Proof. split; reflexivity. Qed.

Lemma work_anniversary_flag_zero_sends :
  hr_send_work_anniversary_reminders
    (settings (Demo.env MariaDB (Demo.flags 0 "Weekly") Demo.staff)) = Some 0
  ∧ length (mails (trace (send_work_anniversary_reminders
                            (Demo.env MariaDB (Demo.flags 0 "Weekly") Demo.staff))))
    = 3%nat.
Proof. split; reflexivity. Qed.

(** ** Holiday reminders *)

(** With distinct document names, a listed name gets its own document. *)
Lemma get_doc_listed E doc :
  NoDup (map emp_name (tabEmployee E)) → doc ∈ tabEmployee E →
  get_doc E (emp_name doc) = Ok doc.
Proof.
  unfold get_doc. induction (tabEmployee E) as [|e table IH]; intros Hnd Hin.
  - by apply elem_of_nil in Hin.
  - simpl in Hnd. apply NoDup_cons in Hnd as [Hfresh Hnd]. simpl.
    apply elem_of_cons in Hin as [->|Hin].
    + by rewrite bool_decide_eq_true_2.
    + rewrite bool_decide_eq_false_2; [by apply IH|].
      intros Heq. apply Hfresh. rewrite Heq. apply list_elem_of_fmap. by exists doc.
Qed.

Lemma holiday_step_sends E doc descriptions :
  is_holiday E (emp_name doc) = Ok (true, descriptions) →
  get_doc E (emp_name doc) = Ok doc →
  holiday_reminder_step E (emp_name doc)
  = ([SendMail (holiday_mail E doc descriptions)],
     sendmail E (holiday_mail E doc descriptions)).
Proof.
  intros Hh Hd. unfold holiday_reminder_step. rewrite Hh, bind_lift_ok.
  unfold send_holiday_reminder_to_employee.
  destruct (get_holiday_reminder_text_and_message E descriptions) as [text message] eqn:Ht.
  rewrite Hd, bind_lift_ok. unfold frappe_sendmail, emit. rewrite bind_ok. simpl.
  unfold holiday_mail. by rewrite Ht.
Qed.

Lemma holiday_step_skips E employee descriptions :
  is_holiday E employee = Ok (false, descriptions) →
  holiday_reminder_step E employee = ([], Ok tt).
Proof. intros Hh. unfold holiday_reminder_step. by rewrite Hh, bind_lift_ok. Qed.

Lemma holiday_step_store_error E employee e :
  is_holiday E employee = Raise e →
  holiday_reminder_step E employee = ([], Raise e).
Proof. intros Hh. unfold holiday_reminder_step. by rewrite Hh. Qed.

Lemma send_holiday_reminders_unfold E :
  send_holiday_reminders E
  = for_each (get_all_employee_names E) (holiday_reminder_step E).
Proof.
  unfold send_holiday_reminders.
  destruct (Z.eqb_spec (int_or (hr_send_holiday_reminders (settings E)) 1) 0) as [H0|_];
    [|done].
  by apply int_or_1_nonzero in H0.
Qed.

Lemma holiday_message_single E d :
  (get_holiday_reminder_text_and_message E [d]).2
  = format (translate E "Holiday is on the occassion of {0}.") [d].
Proof. done. Qed.

Lemma holiday_message_several E descriptions :
  (1 < length descriptions)%nat →
  (get_holiday_reminder_text_and_message E descriptions).2
  = format (translate E "Holiday is on the occassion of {0}.")
      [format (translate E "{0} and {1}")
         [join ", " (map (translate E) (removelast descriptions));
          List.last descriptions ""]].
Proof.
  intros Hlen. destruct descriptions as [|d1 [|d2 rest]]; simpl in Hlen; [lia..|].
  done.
Qed.

(** C2.  With the holiday flag enabled, the run goes through the listed
    employees in order and ends normally; what it does is the sequence of
    what it does for each employee.  For an employee (active or not: the
    listing has no filter) for whom today is a non-weekly holiday that is
    exactly one mail, to that employee's address, whose message names the
    single description as it is, or the descriptions joined by the
    translated "{0} and {1}" when there are several.  For an employee
    without such a holiday it is nothing. *)
Theorem send_holiday_reminders_one_mail_each E z :
  hr_send_holiday_reminders (settings E) = Some z → z ≠ 0 →
  NoDup (map emp_name (tabEmployee E)) →
  (∀ employee, ∃ answer, is_holiday E employee = Ok answer) →
  (∀ m, sendmail E m = Ok tt) →
  outcome (send_holiday_reminders E) = Ok tt
  ∧ trace (send_holiday_reminders E)
    = concat (map (λ doc, trace (holiday_reminder_step E (emp_name doc)))
                  (tabEmployee E))
  ∧ (∀ doc descriptions,
       doc ∈ tabEmployee E →
       is_holiday E (emp_name doc) = Ok (true, descriptions) →
       ∃ m, trace (holiday_reminder_step E (emp_name doc)) = [SendMail m]
            ∧ recipients m = ToList [get_employee_email doc]
            ∧ (∀ d, descriptions = [d] →
                 text_arg "message" m
                 = Some (format (translate E "Holiday is on the occassion of {0}.") [d]))
            ∧ ((1 < length descriptions)%nat →
                 text_arg "message" m
                 = Some (format (translate E "Holiday is on the occassion of {0}.")
                           [format (translate E "{0} and {1}")
                              [join ", " (map (translate E) (removelast descriptions));
                               List.last descriptions ""]])))
  ∧ (∀ doc descriptions,
       doc ∈ tabEmployee E →
       is_holiday E (emp_name doc) = Ok (false, descriptions) →
       trace (holiday_reminder_step E (emp_name doc)) = []).
Proof.
  intros _ _ Hnd Hstore Hsend.
  assert (∀ doc, doc ∈ tabEmployee E →
                 (holiday_reminder_step E (emp_name doc)).2 = Ok tt) as Hok.
  { intros doc Hdoc. destruct (Hstore (emp_name doc)) as [[[] ds] Hh].
    - rewrite (holiday_step_sends _ _ _ Hh (get_doc_listed _ _ Hnd Hdoc)). apply Hsend.
    - by rewrite (holiday_step_skips _ _ _ Hh). }
  rewrite send_holiday_reminders_unfold. unfold get_all_employee_names.
  rewrite for_each_ok.
  2:{ intros employee (doc & -> & Hdoc)%list_elem_of_fmap. by apply Hok. }
  split; [done|]. split.
  { unfold trace. simpl. by rewrite <- list_fmap_compose. }
  split.
  - intros doc ds Hdoc Hh. exists (holiday_mail E doc ds).
    rewrite (holiday_step_sends _ _ _ Hh (get_doc_listed _ _ Hnd Hdoc)).
    split; [done|]. split; [done|]. split.
    + intros d ->. reflexivity.
    + intros Hlen.
      change (text_arg "message" (holiday_mail E doc ds))
        with (Some (get_holiday_reminder_text_and_message E ds).2).
      by rewrite holiday_message_several.
  - intros doc ds _ Hh. by rewrite (holiday_step_skips _ _ _ Hh).
Qed.

Lemma send_holiday_reminders_one_mail_each_witness :
  outcome (send_holiday_reminders (Demo.env MariaDB (Demo.flags 1 "Weekly") Demo.staff))
  = Ok tt.
Proof.
  refine (proj1 (send_holiday_reminders_one_mail_each
                   (Demo.env MariaDB (Demo.flags 1 "Weekly") Demo.staff) 1
                   eq_refl _ _ _ _)).
  - lia.
  - apply (bool_decide_unpack _). vm_compute. exact I.
  - intros employee. simpl. unfold Demo.holidays_today.
    destruct (String.eqb employee "HR-EMP-00002"); [by eexists|].
    destruct (String.eqb employee "HR-EMP-00003"); by eexists.
  - reflexivity.
Defined.

(** ** Birthday reminders *)

Lemma shared_birthday_step_run E persons person :
  shared_birthday_step E persons person
  = ([SendMail (shared_birthday_mail E persons person)],
     sendmail E (shared_birthday_mail E persons person)).
Proof.
  unfold shared_birthday_step, shared_birthday_mail, birthday_mail.
  destruct (get_birthday_reminder_text_and_message E _) as [text message].
  reflexivity.
Qed.

Lemma shared_birthday_steps_trace E persons (some : list Row) :
  concat (map (λ person, (shared_birthday_step E persons person).1) some)
  = map SendMail (map (shared_birthday_mail E persons) some).
Proof.
  induction some as [|p some IH]; [done|].
  cbn [map concat]. rewrite shared_birthday_step_run. cbn [fst app]. by f_equal.
Qed.

Lemma birthday_step_run E c persons :
  (∃ emails, get_all_employee_emails E c = Ok emails) →
  (∀ m, sendmail E m = Ok tt) →
  birthday_reminder_step E (c, persons)
  = (map SendMail (birthday_mails_of E (c, persons)), Ok tt).
Proof.
  intros [emails Hemails] Hsend.
  unfold birthday_reminder_step, birthday_mails_of, group_birthday_mail, audience_of.
  cbn [fst snd]. rewrite Hemails, bind_lift_ok.
  unfold birthday_mail at 1.
  destruct (get_birthday_reminder_text_and_message E persons) as [text message].
  unfold send_birthday_reminder at 1. unfold frappe_sendmail, emit, lift.
  rewrite Hsend, bind_ok. cbn [fst snd app]. rewrite bind_ok. cbn [fst snd app].
  destruct (1 <? length persons)%nat; [|done].
  rewrite for_each_ok.
  - cbn [fst snd map]. by rewrite shared_birthday_steps_trace.
  - intros p _. rewrite shared_birthday_step_run. apply Hsend.
Qed.

(** On MariaDB, with the reminders on and collaborators that answer, the
    run sends the mails of every item of the grouping, item after item. *)
Lemma send_birthday_reminders_run E :
  db_type E = MariaDB →
  birthday_reminders_on E →
  (∀ c, ∃ emails, get_all_employee_emails E c = Ok emails) →
  (∀ m, sendmail E m = Ok tt) →
  send_birthday_reminders E
  = (map SendMail (concat (map (birthday_mails_of E) (birthday_groups E))), Ok tt).
Proof.
  intros Hdb Hon Hstore Hsend. unfold send_birthday_reminders.
  assert (int_or (hr_stop_birthday_reminders (settings E)) 0 = 0) as ->.
  { by destruct Hon as [-> | ->]. }
  cbn [Z.eqb negb]. rewrite (born_today_mariadb _ Hdb), bind_lift_ok.
  unfold items, ret. rewrite bind_ok. cbn [app].
  rewrite for_each_ok.
  - cbn [fst snd]. f_equal.
    induction (birthday_groups E) as [|[c persons] groups IH]; [done|].
    cbn [map concat]. rewrite map_app, <- IH.
    by rewrite birthday_step_run.
  - intros [c persons] _. by rewrite birthday_step_run.
Qed.

Lemma persons_of_birthday_mail E to persons :
  persons_of (birthday_mail E to persons) = Some persons.
Proof. reflexivity. Qed.

Lemma elem_of_birthday_mails_of E item m :
  m ∈ birthday_mails_of E item →
  m = group_birthday_mail E (audience_of E item.1) item.2
  ∨ ∃ person, person ∈ item.2 ∧ m = shared_birthday_mail E item.2 person.
Proof.
  unfold birthday_mails_of. intros [->|Hin]%elem_of_cons; [by left|right].
  destruct (1 <? length item.2)%nat; [|by apply elem_of_nil in Hin].
  apply list_elem_of_fmap in Hin as (person & -> & Hperson). by exists person.
Qed.

(** Every mail of an item is about records of that item. *)
Lemma birthday_mails_of_persons E item m :
  m ∈ birthday_mails_of E item →
  ∃ about, persons_of m = Some about ∧ ∀ r, r ∈ about → r ∈ item.2.
Proof.
  intros [->|(person & Hperson & ->)]%elem_of_birthday_mails_of.
  - by exists item.2.
  - exists (filter (λ d, d ≠ person) item.2). split; [done|].
    by intros r [_ ?]%list_elem_of_filter.
Qed.

(** A mail of another company's item is not about [persons]. *)
Lemma other_item_not_about E k docs c persons m :
  k ≠ c → (∀ r, r ∈ docs → company r = k) →
  persons ≠ [] → (∀ r, r ∈ persons → company r = c) →
  m ∈ birthday_mails_of E (k, docs) → persons_of m ≠ Some persons.
Proof.
  intros Hne Hdocs Hnonempty Hpersons Hm Habout.
  destruct (birthday_mails_of_persons _ _ _ Hm) as (about & Heq & Hsub).
  rewrite Habout in Heq. injection Heq as <-.
  destruct persons as [|r persons]; [done|].
  apply Hne. rewrite <- (Hdocs r), <- (Hpersons r); [done|left|apply Hsub; left].
Qed.

Lemma others_shorter (persons : list Row) person :
  person ∈ persons → filter (λ d, d ≠ person) persons ≠ persons.
Proof.
  intros Hin Heq.
  pose proof (length_filter_lt (λ d, d ≠ person) persons person Hin) as Hlt.
  rewrite Heq in Hlt. apply (Nat.lt_irrefl (length persons)). apply Hlt. by intros ?.
Qed.

(** In a grouping, exactly one mail of the run is about the whole group of
    a company: its group mail. *)
Lemma group_mail_unique E rows groups c persons :
  grouped_by_company rows groups → (c, persons) ∈ groups →
  filter (λ m, persons_of m = Some persons) (concat (map (birthday_mails_of E) groups))
  = [group_birthday_mail E (audience_of E c) persons].
Proof.
  intros Hg Hin.
  assert (∀ k docs, (k, docs) ∈ groups → docs ≠ [] ∧ ∀ r, r ∈ docs → company r = k)
    as Hvalid.
  { intros k docs Hk. split; [by destruct (proj1 (proj2 Hg) _ _ Hk)|].
    intros r Hr. by destruct (grouped_by_company_own_key _ _ _ _ _ Hg Hk Hr). }
  destruct Hg as (Hnd & _ & _).
  destruct (Hvalid _ _ Hin) as [Hnonempty Hpersons].
  apply list_elem_of_split in Hin as (before & after & ->).
  rewrite fmap_app, fmap_cons in Hnd. cbn [fst] in Hnd.
  apply NoDup_app in Hnd as (_ & Hbefore & [Hafter _]%NoDup_cons).
  assert (∀ items, (∀ k docs, (k, docs) ∈ items → k ≠ c ∧ (k, docs) ∈ before ++ (c, persons) :: after) →
          filter (λ m, persons_of m = Some persons)
                 (concat (map (birthday_mails_of E) items)) = []) as Hother.
  { intros items Hitems. apply filter_none. intros m Hm.
    apply elem_of_concat in Hm as (ms & Hms & Hm).
    apply list_elem_of_fmap in Hms as ([k docs] & -> & Hk).
    destruct (Hitems _ _ Hk) as [Hne Hk'].
    eapply other_item_not_about; [exact Hne|by apply Hvalid|done..]. }
  rewrite map_app, concat_app, filter_app. cbn [map concat]. rewrite filter_app.
  rewrite (Hother before), (Hother after).
  - cbn [app]. rewrite app_nil_r. unfold birthday_mails_of. cbn [fst snd].
    rewrite filter_cons_True; [|done]. f_equal.
    apply filter_none. intros m Hm.
    destruct (1 <? length persons)%nat; [|by apply elem_of_nil in Hm].
    apply list_elem_of_fmap in Hm as (person & -> & Hperson).
    unfold shared_birthday_mail. rewrite persons_of_birthday_mail.
    intros [=Heq]. by apply (others_shorter persons person).
  - intros k docs Hk. split.
    + intros ->. apply Hafter. apply list_elem_of_fmap. by exists (c, docs).
    + apply elem_of_app. right. by right.
  - intros k docs Hk. split.
    + intros ->. apply (Hbefore c); [|left].
      apply list_elem_of_fmap. by exists (c, docs).
    + apply elem_of_app. by left.
Qed.

Lemma set_difference_spec (xs ys : list pystr) :
  NoDup (set_difference xs ys)
  ∧ ∀ a, a ∈ set_difference xs ys ↔ a ∈ xs ∧ a ∉ ys.
Proof.
  unfold set_difference. split; [apply NoDup_elements|].
  intros a. rewrite elem_of_elements, elem_of_difference, !elem_of_list_to_set. done.
Qed.

Lemma born_today_row_listed E e :
  e ∈ tabEmployee E → has_event_today E emp_date_of_birth e →
  select_row e ∈ matching_rows E emp_date_of_birth.
Proof.
  intros He Hborn. unfold matching_rows. apply list_elem_of_fmap.
  exists e. split; [done|]. by apply list_elem_of_filter.
Qed.

(** C3.  On MariaDB, where the query runs, and with the reminders on:
    for every company that has an employee whose birthday is today (an
    active employee whose day and month of birth are today's), the run
    sends exactly one mail about the whole group of that company's birthday
    persons.  Its recipients are the addresses of the company's employees
    minus the resolved addresses of the birthday persons: no address
    occurs twice, and none is a birthday person's. *)
Theorem send_birthday_reminders_group_mail E e :
  db_type E = MariaDB →
  birthday_reminders_on E →
  (∀ c, ∃ emails, get_all_employee_emails E c = Ok emails) →
  (∀ m, sendmail E m = Ok tt) →
  e ∈ tabEmployee E → has_event_today E emp_date_of_birth e →
  ∃ rows persons,
    multisql E emp_date_of_birth = Ok rows
    ∧ persons = filter (λ r, company r = emp_company e) rows
    ∧ get_employees_who_are_born_today E = Ok (Some (birthday_groups E))
    ∧ outcome (send_birthday_reminders E) = Ok tt
    ∧ (emp_company e, persons) ∈ birthday_groups E
    ∧ select_row e ∈ persons
    ∧ ∃ m to,
        filter (λ m', persons_of m' = Some persons)
               (mails (trace (send_birthday_reminders E))) = [m]
        ∧ recipients m = ToList to
        ∧ to = set_difference (audience_of E (emp_company e))
                              (map get_employee_email persons)
        ∧ NoDup to
        ∧ (∀ address,
             address ∈ to ↔
             address ∈ audience_of E (emp_company e)
             ∧ address ∉ map get_employee_email persons).
Proof.
  intros Hdb Hon Hstore Hsend He Hborn.
  exists (matching_rows E emp_date_of_birth),
         (filter (λ r, company r = emp_company e) (matching_rows E emp_date_of_birth)).
  split; [by apply multisql_mariadb|]. split; [done|].
  split; [by apply born_today_mariadb|].
  pose proof (grouped_by_company_foldl (matching_rows E emp_date_of_birth)) as Hg.
  fold (birthday_groups E) in Hg.
  pose proof (born_today_row_listed _ _ He Hborn) as Hrow.
  destruct (grouped_by_company_lookup _ _ _ Hg Hrow) as (docs & Hdocs & Hmember).
  change (company (select_row e)) with (emp_company e) in Hdocs.
  assert (docs = filter (λ r, company r = emp_company e)
                        (matching_rows E emp_date_of_birth)) as Hpersons.
  { by destruct (proj1 (proj2 Hg) _ _ Hdocs) as [_ ->]. }
  rewrite <- Hpersons.
  rewrite (send_birthday_reminders_run _ Hdb Hon Hstore Hsend).
  split; [done|]. split; [done|]. split; [done|].
  eexists _, _. unfold trace. cbn [fst]. rewrite mails_SendMail.
  split; [by eapply group_mail_unique|].
  split; [reflexivity|]. split; [reflexivity|]. apply set_difference_spec.
Qed.

Lemma send_birthday_reminders_group_mail_witness :
  ∃ rows persons,
    multisql (Demo.env MariaDB (Demo.flags 0 "Weekly") Demo.staff) emp_date_of_birth
    = Ok rows
    ∧ persons = filter (λ r, company r = emp_company Demo.ben) rows.
Proof.
  destruct (send_birthday_reminders_group_mail
              (Demo.env MariaDB (Demo.flags 0 "Weekly") Demo.staff) Demo.ben)
    as (rows & persons & Hq & Hp & _).
  - reflexivity.
  - right. reflexivity.
  - intros c. simpl. unfold Demo.company_emails.
    destruct (decide (c = Some "Acme")); [by eexists|].
    destruct (decide (c = Some "Globex")); by eexists.
  - reflexivity.
  - apply (bool_decide_unpack _). vm_compute. exact I.
  - apply (bool_decide_unpack _). vm_compute. exact I.
  - exists rows, persons. split; [exact Hq|exact Hp].
Defined.

Example demo_birthday_group_recipients :
  recipients <$> head (mails (trace (send_birthday_reminders
                        (Demo.env MariaDB (Demo.flags 0 "Weekly") Demo.staff))))
  = Some (ToList [Some "chen@acme.test"]).
Proof. vm_compute. reflexivity. Qed.

(** ** People who share a birthday *)

(** The special mails of two different persons of a group differ. *)
Lemma shared_birthday_mail_inj E persons p q :
  p ∈ persons → shared_birthday_mail E persons q = shared_birthday_mail E persons p →
  q = p.
Proof.
  intros Hp Heq. destruct (decide (q = p)) as [|Hne]; [done|].
  apply (f_equal persons_of) in Heq. unfold shared_birthday_mail in Heq.
  rewrite !persons_of_birthday_mail in Heq. injection Heq as Heq.
  assert (p ∈ filter (λ d, d ≠ q) persons) as Hin.
  { apply list_elem_of_filter. split; [by intros ->|done]. }
  rewrite Heq in Hin. by apply list_elem_of_filter in Hin as [? _].
Qed.

(** With pairwise distinct records in the group, the special mail of a
    person occurs exactly once among all the mails of the run. *)
Lemma shared_mail_unique E rows groups c persons person :
  grouped_by_company rows groups → (c, persons) ∈ groups →
  NoDup persons → (1 < length persons)%nat → person ∈ persons →
  filter (λ m, m = shared_birthday_mail E persons person)
         (concat (map (birthday_mails_of E) groups))
  = [shared_birthday_mail E persons person].
Proof.
  intros Hg Hin Hdistinct Hlen Hperson.
  assert (∀ k docs, (k, docs) ∈ groups → docs ≠ [] ∧ ∀ r, r ∈ docs → company r = k)
    as Hvalid.
  { intros k docs Hk. split; [by destruct (proj1 (proj2 Hg) _ _ Hk)|].
    intros r Hr. by destruct (grouped_by_company_own_key _ _ _ _ _ Hg Hk Hr). }
  destruct Hg as (Hnd & _ & _).
  destruct (Hvalid _ _ Hin) as [_ Hpersons].
  set (others := filter (λ d, d ≠ person) persons).
  assert (others ≠ []) as Hothers.
  { intros Hnil. pose proof (length_filter_ne persons person Hdistinct Hperson) as Hl.
    fold others in Hl. rewrite Hnil in Hl. simpl in Hl. lia. }
  assert (∀ r, r ∈ others → company r = c) as Hothers_c.
  { intros r [_ Hr]%list_elem_of_filter. by apply Hpersons. }
  apply list_elem_of_split in Hin as (before & after & ->).
  rewrite fmap_app, fmap_cons in Hnd. cbn [fst] in Hnd.
  apply NoDup_app in Hnd as (_ & Hbefore & [Hafter _]%NoDup_cons).
  assert (∀ items, (∀ k docs, (k, docs) ∈ items → k ≠ c ∧ (k, docs) ∈ before ++ (c, persons) :: after) →
          filter (λ m, m = shared_birthday_mail E persons person)
                 (concat (map (birthday_mails_of E) items)) = []) as Hother.
  { intros items Hitems. apply filter_none. intros m Hm ->.
    apply elem_of_concat in Hm as (ms & Hms & Hm).
    apply list_elem_of_fmap in Hms as ([k docs] & -> & Hk).
    destruct (Hitems _ _ Hk) as [Hne Hk'].
    eapply (other_item_not_about E k docs c others);
      [exact Hne|by apply Hvalid|done|done|exact Hm|].
    unfold shared_birthday_mail. by rewrite persons_of_birthday_mail. }
  rewrite map_app, concat_app, filter_app. cbn [map concat]. rewrite filter_app.
  rewrite (Hother before), (Hother after).
  - cbn [app]. rewrite app_nil_r. unfold birthday_mails_of. cbn [fst snd].
    rewrite filter_cons_False; [|by intros ?].
    rewrite (proj2 (Nat.ltb_lt _ _) Hlen).
    apply filter_map_unique; [done..|].
    intros q _. by apply shared_birthday_mail_inj.
  - intros k docs Hk. split.
    + intros ->. apply Hafter. apply list_elem_of_fmap. by exists (c, docs).
    + apply elem_of_app. right. by right.
  - intros k docs Hk. split.
    + intros ->. apply (Hbefore c); [|left].
      apply list_elem_of_fmap. by exists (c, docs).
    + apply elem_of_app. by left.
Qed.

(** Where the records tell the persons apart, the special mails are as
    they are meant.  On MariaDB, when a company's group of birthday persons
    has more than one record and the records are pairwise distinct, every
    person of the group gets, besides the group mail, exactly one mail of
    their own.  It goes to the person's user id if there is one, else to
    the personal address, else to the company address, and it is about the
    other persons of the group, each of them and not the person. *)
Theorem shared_birthday_mail_names_the_others E c persons person :
  db_type E = MariaDB →
  birthday_reminders_on E →
  (∀ c, ∃ emails, get_all_employee_emails E c = Ok emails) →
  (∀ m, sendmail E m = Ok tt) →
  (c, persons) ∈ birthday_groups E →
  NoDup persons → (1 < length persons)%nat → person ∈ persons →
  let others := filter (λ d, d ≠ person) persons in
  ∃ m,
    filter (λ m', m' = m) (mails (trace (send_birthday_reminders E))) = [m]
    ∧ recipients m
      = ToOne (or_ (user_id person)
                   (or_ (personal_email person) (company_email person)))
    ∧ persons_of m = Some others
    ∧ (person ∉ others)
    ∧ (∀ q, q ∈ others ↔ (q ∈ persons ∧ q ≠ person))
    ∧ length others = (length persons - 1)%nat
    ∧ text_arg "reminder_text" m
      = Some (format (translate E "Today is {0}'s birthday 🎉")
                [match others with
                 | [q] => name q
                 | _ => comma_sep (translate E) (map name others)
                          (translate E "{0} & {1}") false
                 end]).
Proof.
  intros Hdb Hon Hstore Hsend Hin Hdistinct Hlen Hperson others.
  exists (shared_birthday_mail E persons person).
  rewrite (send_birthday_reminders_run _ Hdb Hon Hstore Hsend).
  unfold trace. cbn [fst]. rewrite mails_SendMail.
  split.
  { eapply shared_mail_unique; [|done..].
    apply (grouped_by_company_foldl (matching_rows E emp_date_of_birth)). }
  split; [done|]. split; [done|]. split.
  { by intros [? _]%list_elem_of_filter. }
  split.
  { intros q. subst others. rewrite list_elem_of_filter. tauto. }
  split; [by apply length_filter_ne|].
  reflexivity.
Qed.

Lemma shared_birthday_mail_names_the_others_witness :
  ∃ m, recipients m = ToOne (Some "asha@acme.test") ∧ persons_of m = Some [ben_row].
Proof.
  destruct (shared_birthday_mail_names_the_others
              (Demo.env MariaDB (Demo.flags 0 "Weekly") Demo.staff)
              (Some "Acme") [asha_row; ben_row] asha_row)
    as (m & _ & Hto & Habout & _).
  - reflexivity.
  - right. reflexivity.
  - intros c. simpl. unfold Demo.company_emails.
    destruct (decide (c = Some "Acme")); [by eexists|].
    destruct (decide (c = Some "Globex")); by eexists.
  - reflexivity.
  - apply (bool_decide_unpack _). vm_compute. exact I.
  - apply (bool_decide_unpack _). vm_compute. exact I.
  - simpl. lia.
  - left.
  - exists m. split; [exact Hto|exact Habout].
Defined.

(** C4, at an input where the code departs from it.  The two employees of
    the example are different documents of one company, both active and
    born on today's day and month, so each is the other's co-celebrant.
    Their query rows are equal, the rows carry no document name, and
    [d != person] leaves out both: the special mail each of them gets is
    about no one, and its text names no one. *)
Lemma namesakes_are_not_named :
  let E := Demo.env MariaDB (Demo.flags 0 "Weekly") Demo.namesakes in
  Demo.sam_senior ≠ Demo.sam_junior
  ∧ has_event_today E emp_date_of_birth Demo.sam_senior
  ∧ has_event_today E emp_date_of_birth Demo.sam_junior
  ∧ emp_company Demo.sam_senior = emp_company Demo.sam_junior
  ∧ map (λ m, (persons_of m, text_arg "reminder_text" m))
        (filter (λ m, recipients m = ToOne (Some "lee@home.test"))
                (mails (trace (send_birthday_reminders E))))
    = [(Some [], Some "Today is 's birthday 🎉");
       (Some [], Some "Today is 's birthday 🎉")]
  ∧ ¬ ∃ m, m ∈ mails (trace (send_birthday_reminders E))
           ∧ recipients m = ToOne (get_employee_email Demo.sam_senior)
           ∧ persons_of m = Some [select_row Demo.sam_junior].
Proof.
  intros E. split; [discriminate|].
  split; [by apply (bool_decide_unpack _)|].
  split; [by apply (bool_decide_unpack _)|].
  split; [reflexivity|].
  split; [by vm_compute|].
  intros (m & Hm & Hto & Habout).
  assert (Forall (λ m, persons_of m ≠ Some [select_row Demo.sam_junior])
                 (mails (trace (send_birthday_reminders E)))) as Hall.
  { apply (bool_decide_unpack _). by vm_compute. }
  by apply (proj1 (Forall_forall _ _) Hall m Hm).
Qed.

(** ** Failures *)

(** With the reminders on, the birthday run is its query followed by the
    loop over the items of the mapping. *)
Lemma send_birthday_reminders_with E groups :
  birthday_reminders_on E →
  get_employees_who_are_born_today E = Ok (Some groups) →
  send_birthday_reminders E = for_each groups (birthday_reminder_step E).
Proof.
  intros Hon Hq. unfold send_birthday_reminders.
  assert (int_or (hr_stop_birthday_reminders (settings E)) 0 = 0) as ->.
  { by destruct Hon as [-> | ->]. }
  cbn [Z.eqb negb]. rewrite Hq, bind_lift_ok.
  unfold items, ret. rewrite bind_ok. cbn [app].
  by destruct (for_each _ _).
Qed.

Lemma send_birthday_reminders_query_error E e :
  birthday_reminders_on E →
  get_employees_who_are_born_today E = Raise e →
  send_birthday_reminders E = ([], Raise e).
Proof.
  intros Hon Hq. unfold send_birthday_reminders.
  assert (int_or (hr_stop_birthday_reminders (settings E)) 0 = 0) as ->.
  { by destruct Hon as [-> | ->]. }
  cbn [Z.eqb negb]. by rewrite Hq.
Qed.

Lemma send_birthday_reminders_unfold E :
  db_type E = MariaDB →
  birthday_reminders_on E →
  send_birthday_reminders E = for_each (birthday_groups E) (birthday_reminder_step E).
Proof.
  intros Hdb Hon. apply send_birthday_reminders_with; [done|].
  by apply born_today_mariadb.
Qed.

(** The work-anniversary run is its query followed by the loop over the
    items of the mapping, whatever its flag is. *)
Lemma send_work_anniversary_reminders_with E groups :
  get_employees_having_an_event_today E "work_anniversary" = Ok (Some groups) →
  send_work_anniversary_reminders E
  = for_each groups (work_anniversary_reminder_step E).
Proof.
  intros Hq. unfold send_work_anniversary_reminders.
  destruct (Z.eqb_spec (int_or (hr_send_work_anniversary_reminders (settings E)) 1) 0)
    as [H0|_]; [by apply int_or_1_nonzero in H0|].
  rewrite Hq, bind_lift_ok. unfold items, ret. rewrite bind_ok. cbn [app].
  by destruct (for_each _ _).
Qed.

Lemma send_work_anniversary_reminders_query_error E e :
  get_employees_having_an_event_today E "work_anniversary" = Raise e →
  send_work_anniversary_reminders E = ([], Raise e).
Proof.
  intros Hq. unfold send_work_anniversary_reminders.
  destruct (Z.eqb_spec (int_or (hr_send_work_anniversary_reminders (settings E)) 1) 0)
    as [H0|_]; [by apply int_or_1_nonzero in H0|].
  by rewrite Hq.
Qed.

(** C8 as stated fails: nothing in the module catches an exception.  In
    the example the holiday store fails for the first employee; the run
    ends with that exception, nothing has been sent, and Ben, whose own
    iteration would have sent his holiday mail without any failure, gets
    nothing. *)
Lemma one_failure_ends_the_run :
  let E := Demo.env_failing (Demo.flags 1 "Weekly") Demo.staff in
  send_holiday_reminders E
  = ([], Raise (CollaboratorError "holiday list lookup failed"))
  ∧ emp_name Demo.ben ∈ get_all_employee_names E
  ∧ ∃ m, holiday_reminder_step E (emp_name Demo.ben) = ([SendMail m], Ok tt)
         ∧ recipients m = ToList [Some "ben@home.test"]
         ∧ SendMail m ∉ trace (send_holiday_reminders E).
Proof.
  intros E. split; [reflexivity|]. split.
  { apply (bool_decide_unpack _). by vm_compute. }
  eexists. split; [reflexivity|]. split; [reflexivity|].
  by intros ?%elem_of_nil.
Qed.

(** C8, as the code behaves.  In each of the four runs, an exception
    raised while one employee, or one company, is processed ends the run
    with that exception: the calls made for those before it, and the calls
    of the failing iteration up to the failure, are all the run has made;
    nothing is done for those after it.  An exception of the query, or of
    the window computation, ends the run before its loop.  An employee
    without any address and a group without a company are not failures:
    the holiday mail is handed over with the address [None], and the group
    is processed under the key [None] like any other. *)
Theorem failure_stops_the_run E :
  (∀ before doc after e,
     tabEmployee E = before ++ doc :: after →
     (∀ d, d ∈ before → outcome (holiday_reminder_step E (emp_name d)) = Ok tt) →
     outcome (holiday_reminder_step E (emp_name doc)) = Raise e →
     send_holiday_reminders E
     = (concat (map (λ d, trace (holiday_reminder_step E (emp_name d))) before)
        ++ trace (holiday_reminder_step E (emp_name doc)),
        Raise e))
  ∧ (∀ before item after e,
       birthday_reminders_on E →
       get_employees_who_are_born_today E = Ok (Some (before ++ item :: after)) →
       (∀ i, i ∈ before → outcome (birthday_reminder_step E i) = Ok tt) →
       outcome (birthday_reminder_step E item) = Raise e →
       send_birthday_reminders E
       = (concat (map (λ i, trace (birthday_reminder_step E i)) before)
          ++ trace (birthday_reminder_step E item),
          Raise e))
  ∧ (∀ before item after e,
       get_employees_having_an_event_today E "work_anniversary"
       = Ok (Some (before ++ item :: after)) →
       (∀ i, i ∈ before → outcome (work_anniversary_reminder_step E i) = Ok tt) →
       outcome (work_anniversary_reminder_step E item) = Raise e →
       send_work_anniversary_reminders E
       = (concat (map (λ i, trace (work_anniversary_reminder_step E i)) before)
          ++ trace (work_anniversary_reminder_step E item),
          Raise e))
  ∧ (∀ frequency start_date end_date before employee after e,
       advance_window E frequency = Ok (Some (start_date, end_date)) →
       get_all_employee_names E = before ++ employee :: after →
       (∀ x, x ∈ before →
             outcome (advance_holiday_step E start_date end_date x) = Ok tt) →
       outcome (advance_holiday_step E start_date end_date employee) = Raise e →
       send_advance_holiday_reminders E frequency
       = (concat (map (λ x, trace (advance_holiday_step E start_date end_date x)) before)
          ++ trace (advance_holiday_step E start_date end_date employee),
          Raise e))
  ∧ (∀ e,
       (birthday_reminders_on E → get_employees_who_are_born_today E = Raise e →
        send_birthday_reminders E = ([], Raise e))
       ∧ (get_employees_having_an_event_today E "work_anniversary" = Raise e →
          send_work_anniversary_reminders E = ([], Raise e))
       ∧ (∀ frequency, advance_window E frequency = Raise e →
                       send_advance_holiday_reminders E frequency = ([], Raise e)))
  ∧ (∀ doc descriptions,
       NoDup (map emp_name (tabEmployee E)) → doc ∈ tabEmployee E →
       is_holiday E (emp_name doc) = Ok (true, descriptions) →
       get_employee_email doc = None →
       ∃ m, trace (holiday_reminder_step E (emp_name doc)) = [SendMail m]
            ∧ recipients m = ToList [None])
  ∧ (∀ persons emails,
       get_all_employee_emails E None = Ok emails →
       (∀ m, sendmail E m = Ok tt) →
       birthday_reminder_step E (None, persons)
       = (map SendMail (birthday_mails_of E (None, persons)), Ok tt)).
Proof.
  split; [|split; [|split; [|split; [|split; [|split]]]]].
  - intros before doc after e Htable Hbefore Hdoc.
    rewrite send_holiday_reminders_unfold. unfold get_all_employee_names.
    rewrite Htable, map_app. cbn [map].
    rewrite (for_each_raise _ _ _ e); [|  |exact Hdoc].
    + by rewrite <- list_fmap_compose.
    + intros employee (d & -> & Hd)%list_elem_of_fmap. by apply Hbefore.
  - intros before item after e Hon Hgroups Hbefore Hitem.
    rewrite (send_birthday_reminders_with _ _ Hon Hgroups).
    by apply for_each_raise.
  - intros before item after e Hgroups Hbefore Hitem.
    rewrite (send_work_anniversary_reminders_with _ _ Hgroups).
    by apply for_each_raise.
  - intros frequency start_date end_date before employee after e Hw Hnames Hbefore Hstep.
    unfold send_advance_holiday_reminders. rewrite Hw, bind_lift_ok, Hnames.
    by apply for_each_raise.
  - intros e. split; [|split].
    + apply send_birthday_reminders_query_error.
    + apply send_work_anniversary_reminders_query_error.
    + intros frequency Hw. unfold send_advance_holiday_reminders. by rewrite Hw.
  - intros doc ds Hnd Hdoc Hh Hnone. exists (holiday_mail E doc ds).
    rewrite (holiday_step_sends _ _ _ Hh (get_doc_listed _ _ Hnd Hdoc)).
    split; [done|]. unfold holiday_mail. cbn [recipients]. by rewrite Hnone.
  - intros persons emails Hemails Hsend. apply birthday_step_run; [by eexists|done].
Qed.

Lemma failure_stops_the_run_witness :
  send_holiday_reminders (Demo.env_failing (Demo.flags 1 "Weekly") Demo.staff)
  = ([], Raise (CollaboratorError "holiday list lookup failed")).
Proof.
  refine (proj1 (failure_stops_the_run
                   (Demo.env_failing (Demo.flags 1 "Weekly") Demo.staff))
                [] Demo.asha [Demo.ben; Demo.chen; Demo.dara]
                (CollaboratorError "holiday list lookup failed") _ _ _).
  - reflexivity.
  - intros d Hd. by apply elem_of_nil in Hd.
  - reflexivity.
Defined.

(** ** Further properties of the module *)

(** *** The settings *)

Lemma send_work_anniversary_reminders_unfold E :
  db_type E = MariaDB →
  send_work_anniversary_reminders E
  = for_each (anniversary_groups E) (work_anniversary_reminder_step E).
Proof.
  intros Hdb. apply send_work_anniversary_reminders_with.
  by apply joined_today_mariadb.
Qed.

(** The holiday run does not depend on HR Settings: with any settings at
    all, the flag missing, 0, 1 or any other number, it makes the same
    calls and ends the same way. *)
Theorem holiday_run_ignores_settings E s :
  send_holiday_reminders (with_settings s E) = send_holiday_reminders E.
Proof. by rewrite !send_holiday_reminders_unfold. Qed.

(** Nor does the work-anniversary run. *)
Theorem work_anniversary_run_ignores_settings E s :
  send_work_anniversary_reminders (with_settings s E)
  = send_work_anniversary_reminders E.
Proof.
  unfold send_work_anniversary_reminders.
  destruct (Z.eqb_spec
              (int_or (hr_send_work_anniversary_reminders (settings (with_settings s E))) 1)
              0) as [H0|_]; [by apply int_or_1_nonzero in H0|].
  destruct (Z.eqb_spec (int_or (hr_send_work_anniversary_reminders (settings E)) 1) 0)
    as [H0|_]; [by apply int_or_1_nonzero in H0|].
  reflexivity.
Qed.

(** The weekly entry point looks at the frequency only: with the frequency
    "Weekly" it is the Weekly run, whatever the flag says, and with any
    other frequency, or none, it does nothing. *)
Theorem weekly_entry_by_frequency E :
  send_reminders_in_advance_weekly E
  = if decide (hr_frequency (settings E) = Some "Weekly")
    then send_advance_holiday_reminders E "Weekly"
    else ([], Ok tt).
Proof.
  unfold send_reminders_in_advance_weekly.
  destruct (Z.eqb_spec (int_or (hr_send_holiday_reminders_in_advance (settings E)) 1) 0)
    as [H0|_]; [by apply int_or_1_nonzero in H0|].
  cbn [negb andb]. by case_bool_decide; case_decide.
Qed.

(** The monthly entry point never queries the holiday store and never
    sends: with the frequency "Monthly" it ends with the [TypeError] of
    the window computation, and with any other frequency, or none, it does
    nothing. *)
Theorem monthly_entry_never_queries E :
  trace (send_reminders_in_advance_monthly E) = []
  ∧ outcome (send_reminders_in_advance_monthly E)
    = if decide (hr_frequency (settings E) = Some "Monthly")
      then Raise (TypeError "add_days() missing 1 required positional argument: 'days'")
      else Ok tt.
Proof.
  unfold send_reminders_in_advance_monthly.
  destruct (Z.eqb_spec (int_or (hr_send_holiday_reminders_in_advance (settings E)) 1) 0)
    as [H0|_]; [by apply int_or_1_nonzero in H0|].
  cbn [negb andb]. by case_bool_decide; case_decide.
Qed.

(** *** The Weekly run *)

Lemma advance_step_trace E start_date end_date employee :
  advance_holiday_step E start_date end_date employee
  = ([HolidayQuery [VDate start_date; VDate end_date]
        [("only_non_weekly", VBool true); ("raise_exception", VBool false)]],
     match get_holidays_for_employee E [VDate start_date; VDate end_date]
             [("only_non_weekly", VBool true); ("raise_exception", VBool false)] with
     | Ok _ => Ok tt
     | Raise e => Raise e
     end).
Proof.
  unfold advance_holiday_step, call_get_holidays_for_employee, emit, lift.
  rewrite bind_ok. cbn [fst snd app].
  by destruct (get_holidays_for_employee E _ _) as [[hs|]|e].
Qed.

(** Every iteration of the Weekly run makes the same query, since the
    employee is not part of it.  So the run makes either as many queries as
    there are employees, all answered, and ends normally; or, when the
    holiday store rejects the query, one query only, for the first
    employee, and ends with the store's exception.  It never sends. *)
Theorem weekly_run_all_or_one E :
  match get_holidays_for_employee E
          [VDate (plus_days (getdate E) 1); VDate (plus_days (getdate E) 7)]
          [("only_non_weekly", VBool true); ("raise_exception", VBool false)] with
  | Ok _ =>
      send_advance_holiday_reminders E "Weekly"
      = (replicate (length (tabEmployee E)) (weekly_query E), Ok tt)
  | Raise e =>
      send_advance_holiday_reminders E "Weekly"
      = match tabEmployee E with
        | [] => ([], Ok tt)
        | _ :: _ => ([weekly_query E], Raise e)
        end
  end.
Proof.
  unfold send_advance_holiday_reminders. rewrite advance_window_weekly, bind_lift_ok.
  unfold get_all_employee_names.
  destruct (get_holidays_for_employee E _ _) as [answer|e] eqn:Hstore.
  - rewrite for_each_ok.
    + f_equal. rewrite <- list_fmap_compose.
      rewrite (list_fmap_ext _ (λ _, [weekly_query E])).
      * induction (tabEmployee E) as [|doc table IH]; [done|].
        simpl. f_equal. exact IH.
      * intros i doc _. simpl. by rewrite advance_step_trace.
    + intros employee _. by rewrite advance_step_trace, Hstore.
  - destruct (tabEmployee E) as [|doc table]; [done|].
    cbn [map]. rewrite (for_each_raise [] (map emp_name table) (emp_name doc) e).
    + by rewrite advance_step_trace.
    + by intros y ?%elem_of_nil.
    + by rewrite advance_step_trace, Hstore.
Qed.

(** *** The query and the grouping *)

Lemma dict_append_values key doc d :
  concat (map snd (dict_append key doc d)) ≡ₚ concat (map snd d) ++ [doc].
Proof.
  induction d as [|[k docs] d IH]; [done|].
  cbn [dict_append]. destruct (decide (k = key)) as [->|Hne]; cbn [map snd concat].
  - rewrite <- !(assoc_L (++)). f_equiv. apply Permutation_app_comm.
  - rewrite IH. by rewrite (assoc_L (++)).
Qed.

Lemma grouping_values rows :
  concat (map snd
            (foldl (λ d employee_doc,
                      dict_append (company employee_doc) employee_doc d) [] rows))
  ≡ₚ rows.
Proof.
  induction rows as [|r rows IH] using rev_ind; [done|].
  rewrite foldl_snoc, dict_append_values. by rewrite IH.
Qed.

(** The grouping neither loses nor repeats a row: for both event types,
    the groups of a mapping the function returns, put one after the other,
    are the rows the query returned, in some order.  On MariaDB the
    function returns such a mapping for both event types. *)
Theorem grouping_keeps_every_row E :
  (∀ d, get_employees_having_an_event_today E "birthday" = Ok (Some d) →
        ∃ rows, multisql E emp_date_of_birth = Ok rows
                ∧ concat (map snd d) ≡ₚ rows)
  ∧ (∀ d, get_employees_having_an_event_today E "work_anniversary" = Ok (Some d) →
          ∃ rows, multisql E emp_date_of_joining = Ok rows
                  ∧ concat (map snd d) ≡ₚ rows)
  ∧ (db_type E = MariaDB →
     ∃ born joined,
       get_employees_having_an_event_today E "birthday" = Ok (Some born)
       ∧ concat (map snd born) ≡ₚ matching_rows E emp_date_of_birth
       ∧ get_employees_having_an_event_today E "work_anniversary" = Ok (Some joined)
       ∧ concat (map snd joined) ≡ₚ matching_rows E emp_date_of_joining).
Proof.
  split; [|split].
  - intros d [Hdb ->]%born_today_returned. eexists.
    split; [by apply multisql_mariadb|apply grouping_values].
  - intros d [Hdb ->]%joined_today_returned. eexists.
    split; [by apply multisql_mariadb|apply grouping_values].
  - intros Hdb. eexists _, _.
    split; [by apply born_today_mariadb|]. split; [apply grouping_values|].
    split; [by apply joined_today_mariadb|apply grouping_values].
Qed.

Lemma grouping_keeps_every_row_witness :
  ∃ rows,
    multisql (Demo.env MariaDB (Demo.flags 0 "Weekly") Demo.staff) emp_date_of_birth
    = Ok rows
    ∧ concat (map snd (birthday_groups
                         (Demo.env MariaDB (Demo.flags 0 "Weekly") Demo.staff)))
      ≡ₚ rows.
Proof.
  apply (proj1 (grouping_keeps_every_row
                  (Demo.env MariaDB (Demo.flags 0 "Weekly") Demo.staff))).
  reflexivity.
Defined.

Lemma elem_of_matching_rows E column r :
  r ∈ matching_rows E column →
  ∃ e when, e ∈ tabEmployee E ∧ r = select_row e
            ∧ emp_status e = "Active" ∧ column e = Some when
            ∧ day when = day (getdate E) ∧ month when = month (getdate E).
Proof.
  unfold matching_rows. intros (e & -> & He)%list_elem_of_fmap.
  apply list_elem_of_filter in He as [[Hsame Hactive] He].
  unfold same_day_and_month in Hsame.
  destruct (column e) as [when|] eqn:Hwhen; [|done].
  destruct Hsame as [Hday Hmonth]. by exists e, when.
Qed.

(** Who is congratulated: every record of a mapping that
    [get_employees_who_are_born_today] returns is the row of an employee
    of the table who is active and whose date of birth has today's day and
    month, whatever its year; the key of the group is that employee's
    company.  An employee who is not active, or has no date of birth, is
    in no group. *)
Theorem birthday_groups_hold_active_employees_born_today E d k docs r :
  get_employees_who_are_born_today E = Ok (Some d) →
  (k, docs) ∈ d → r ∈ docs →
  ∃ e born, e ∈ tabEmployee E ∧ r = select_row e ∧ k = emp_company e
            ∧ emp_status e = "Active" ∧ emp_date_of_birth e = Some born
            ∧ day born = day (getdate E) ∧ month born = month (getdate E).
Proof.
  intros [Hdb ->]%born_today_returned Hin Hr.
  pose proof (grouped_by_company_foldl (matching_rows E emp_date_of_birth)) as Hg.
  destruct (grouped_by_company_own_key _ _ _ _ _ Hg Hin Hr) as [Hk Hrow].
  destruct (elem_of_matching_rows _ _ _ Hrow)
    as (e & born & He & -> & Ha & Hb & Hd & Hm).
  exists e, born. by rewrite <- Hk.
Qed.

Lemma birthday_groups_hold_active_employees_born_today_witness :
  ∃ e born,
    e ∈ tabEmployee (Demo.env MariaDB (Demo.flags 0 "Weekly") Demo.staff)
    ∧ ben_row = select_row e ∧ Some "Acme" = emp_company e
    ∧ emp_status e = "Active" ∧ emp_date_of_birth e = Some born
    ∧ day born = 15 ∧ month born = 1.
Proof.
  apply (birthday_groups_hold_active_employees_born_today
           (Demo.env MariaDB (Demo.flags 0 "Weekly") Demo.staff)
           (birthday_groups (Demo.env MariaDB (Demo.flags 0 "Weekly") Demo.staff))
           (Some "Acme") [asha_row; ben_row] ben_row).
  - reflexivity.
  - apply (bool_decide_unpack _). vm_compute. exact I.
  - right. left.
Defined.

(** *** The holiday run, whatever the collaborators do *)

(** A listed name has a document: the first of the table with that name. *)
Lemma get_doc_first E employee :
  employee ∈ get_all_employee_names E →
  ∃ doc, get_doc E employee = Ok doc ∧ doc ∈ tabEmployee E ∧ emp_name doc = employee.
Proof.
  unfold get_all_employee_names, get_doc.
  induction (tabEmployee E) as [|e table IH]; intros Hin.
  - by apply elem_of_nil in Hin.
  - cbn [List.find]. destruct (decide (emp_name e = employee)) as [Heq|Hne].
    + rewrite bool_decide_eq_true_2; [|done]. exists e. split; [done|]. split; [left|done].
    + rewrite bool_decide_eq_false_2; [|done].
      cbn [map] in Hin. apply elem_of_cons in Hin as [Heq|Hin]; [congruence|].
      destruct (IH Hin) as (doc & Hdoc & Hmem & Hname).
      exists doc. split; [done|]. split; [by right|done].
Qed.

(** A loop that raises does so in one of its iterations, whose calls are
    among the calls of the loop. *)
Lemma for_each_raise_inv {Ev A} (xs : list A) (body : A → M Ev unit) e :
  (for_each xs body).2 = Raise e →
  ∃ x, x ∈ xs ∧ (body x).2 = Raise e ∧ ∀ ev, ev ∈ (body x).1 → ev ∈ (for_each xs body).1.
Proof.
  induction xs as [|x xs IH]; [done|].
  cbn [for_each]. destruct (body x) as [t [[]|e']] eqn:Hx.
  - rewrite bind_ok. cbn [fst snd]. intros Hraise.
    destruct (IH Hraise) as (y & Hy & Hbody & Hsub).
    exists y. split; [by right|]. split; [done|].
    intros ev Hev. apply elem_of_app. right. by apply Hsub.
  - cbn. intros [= ->]. exists x. split; [left|]. by rewrite Hx.
Qed.

(** What one iteration of the holiday run does, case by case. *)
Lemma holiday_step_cases E employee :
  employee ∈ get_all_employee_names E →
  (∃ e, is_holiday E employee = Raise e ∧ holiday_reminder_step E employee = ([], Raise e))
  ∨ (∃ ds, is_holiday E employee = Ok (false, ds)
           ∧ holiday_reminder_step E employee = ([], Ok tt))
  ∨ (∃ doc ds, doc ∈ tabEmployee E ∧ emp_name doc = employee
               ∧ is_holiday E employee = Ok (true, ds)
               ∧ holiday_reminder_step E employee
                 = ([SendMail (holiday_mail E doc ds)],
                    sendmail E (holiday_mail E doc ds))).
Proof.
  intros Hlisted. destruct (is_holiday E employee) as [[[] ds]|e] eqn:Hh.
  - right. right. destruct (get_doc_first _ _ Hlisted) as (doc & Hdoc & Hmem & <-).
    exists doc, ds. by rewrite (holiday_step_sends _ _ _ Hh Hdoc).
  - right. left. exists ds. by rewrite (holiday_step_skips _ _ _ Hh).
  - left. exists e. by rewrite (holiday_step_store_error _ _ _ Hh).
Qed.

(** Whether the holiday run ends normally or not, every call it makes is
    a holiday mail, to the one resolved address of an employee of the
    table for whom the holiday store answered that today is a holiday,
    with the descriptions it gave.  Nobody else is ever mailed. *)
Theorem holiday_run_mails_only_for_holidays E :
  Forall (λ ev, ∃ doc ds,
            doc ∈ tabEmployee E
            ∧ is_holiday E (emp_name doc) = Ok (true, ds)
            ∧ ev = SendMail (holiday_mail E doc ds)
            ∧ recipients (holiday_mail E doc ds) = ToList [get_employee_email doc])
         (trace (send_holiday_reminders E)).
Proof.
  rewrite send_holiday_reminders_unfold. apply for_each_trace_Forall.
  intros employee Hlisted.
  destruct (holiday_step_cases _ _ Hlisted)
    as [(e & _ & ->)|[(ds & _ & ->)|(doc & ds & Hdoc & <- & Hh & ->)]];
    [constructor..|].
  repeat constructor. by exists doc, ds.
Qed.

(** A holiday run that ends with an exception got it from a collaborator:
    from the holiday store, asked about a listed employee, or from the
    mail sender, for a mail the run handed over.  Looking up the document
    of a listed employee never fails. *)
Theorem holiday_run_errors_come_from_collaborators E e :
  outcome (send_holiday_reminders E) = Raise e →
  (∃ employee, employee ∈ get_all_employee_names E ∧ is_holiday E employee = Raise e)
  ∨ (∃ m, SendMail m ∈ trace (send_holiday_reminders E) ∧ sendmail E m = Raise e).
Proof.
  rewrite send_holiday_reminders_unfold. intros Hraise.
  apply for_each_raise_inv in Hraise as (employee & Hlisted & Hstep & Hsub).
  destruct (holiday_step_cases _ _ Hlisted)
    as [(e' & Hh & Heq)|[(ds & _ & Heq)|(doc & ds & Hdoc & <- & Hh & Heq)]];
    rewrite Heq in Hstep, Hsub; cbn [fst snd] in Hstep, Hsub.
  - left. exists employee. split; [done|]. congruence.
  - done.
  - right. exists (holiday_mail E doc ds). split; [|done]. apply Hsub. left.
Qed.

Lemma holiday_run_errors_come_from_collaborators_witness :
  (∃ employee,
     employee ∈ get_all_employee_names (Demo.env_failing (Demo.flags 1 "Weekly") Demo.staff)
     ∧ is_holiday (Demo.env_failing (Demo.flags 1 "Weekly") Demo.staff) employee
       = Raise (CollaboratorError "holiday list lookup failed"))
  ∨ (∃ m, SendMail m ∈ trace (send_holiday_reminders
                               (Demo.env_failing (Demo.flags 1 "Weekly") Demo.staff))
          ∧ sendmail (Demo.env_failing (Demo.flags 1 "Weekly") Demo.staff) m
            = Raise (CollaboratorError "holiday list lookup failed")).
Proof.
  apply (holiday_run_errors_come_from_collaborators
           (Demo.env_failing (Demo.flags 1 "Weekly") Demo.staff)).
  reflexivity.
Defined.

(** *** The texts, when nothing is translated *)

Lemma string_app_nil_r (s : string) : s +:+ "" = s.
Proof.
  induction s as [|c s IH]; [done|].
  change (String c (s +:+ "") = String c s). by f_equal.
Qed.

Lemma map_untranslated (tr : string → string) (xs : list string) :
  (∀ s, tr s = s) → map tr xs = xs.
Proof. intros Htr. induction xs as [|x xs IH]; [done|]. simpl. by rewrite Htr, IH. Qed.

Lemma comma_sep_and (tr : string → string) (xs : list string) :
  (∀ s, tr s = s) → comma_sep tr xs "{0} and {1}" false = joined_with " and " xs.
Proof.
  intros Htr. destruct xs as [|x1 [|x2 xs]]; [done..|].
  unfold comma_sep, joined_with. rewrite (map_untranslated _ _ Htr).
  generalize (join ", " (removelast (x1 :: x2 :: xs))) (List.last (x1 :: x2 :: xs) "").
  intros a b.
  change (format "{0} and {1}" [a; b]) with (a +:+ " and " +:+ (b +:+ "")).
  by rewrite string_app_nil_r.
Qed.

Lemma comma_sep_amp (tr : string → string) (xs : list string) :
  (∀ s, tr s = s) → comma_sep tr xs "{0} & {1}" false = joined_with " & " xs.
Proof.
  intros Htr. destruct xs as [|x1 [|x2 xs]]; [done..|].
  unfold comma_sep, joined_with. rewrite (map_untranslated _ _ Htr).
  generalize (join ", " (removelast (x1 :: x2 :: xs))) (List.last (x1 :: x2 :: xs) "").
  intros a b.
  change (format "{0} & {1}" [a; b]) with (a +:+ " & " +:+ (b +:+ "")).
  by rewrite string_app_nil_r.
Qed.

(** The holiday mail as it reads without a translation: the message is
    "Holiday is on the occassion of D." where D is the description when
    there is one, the descriptions separated by ", " with " and " before
    the last when there are several, and nothing when there is none. *)
Theorem holiday_text_untranslated E descriptions :
  untranslated E →
  get_holiday_reminder_text_and_message E descriptions
  = ("This email is to remind you about today's holiday.",
     "Holiday is on the occassion of " +:+ joined_with " and " descriptions +:+ ".").
Proof.
  intros Htr. unfold get_holiday_reminder_text_and_message, comma_and.
  rewrite !Htr, (comma_sep_and _ _ Htr).
  assert ((match descriptions with [d] => d | _ => joined_with " and " descriptions end)
          = joined_with " and " descriptions) as ->.
  { by destruct descriptions as [|d1 [|d2 ds]]. }
  reflexivity.
Qed.

Lemma holiday_text_untranslated_witness :
  get_holiday_reminder_text_and_message
    (Demo.env MariaDB (Demo.flags 1 "Weekly") Demo.staff)
    ["Founders Day"; "Harvest"; "Local"]
  = ("This email is to remind you about today's holiday.",
     "Holiday is on the occassion of Founders Day, Harvest and Local.").
Proof.
  apply (holiday_text_untranslated
           (Demo.env MariaDB (Demo.flags 1 "Weekly") Demo.staff)
           ["Founders Day"; "Harvest"; "Local"]).
  intros s. reflexivity.
Defined.

(** The birthday mail as it reads without a translation: the persons are
    named by the one name, or by the names separated by ", " with " & "
    before the last; for an empty list of persons the name is empty. *)
Theorem birthday_text_untranslated E birthday_persons :
  untranslated E →
  get_birthday_reminder_text_and_message E birthday_persons
  = ("Today is " +:+ joined_with " & " (map name birthday_persons) +:+ "'s birthday 🎉",
     "A friendly reminder of an important date for our team.<br>"
     +:+ "Everyone, let’s congratulate "
     +:+ joined_with " & " (map name birthday_persons) +:+ " on their birthday.").
Proof.
  intros Htr. unfold get_birthday_reminder_text_and_message.
  rewrite !Htr, (comma_sep_amp _ _ Htr).
  assert ((match birthday_persons with
           | [p] => name p
           | _ => joined_with " & " (map name birthday_persons)
           end)
          = joined_with " & " (map name birthday_persons)) as ->.
  { by destruct birthday_persons as [|p1 [|p2 ps]]. }
  reflexivity.
Qed.

Lemma birthday_text_untranslated_witness :
  (get_birthday_reminder_text_and_message
     (Demo.env MariaDB (Demo.flags 1 "Weekly") Demo.staff) [asha_row; ben_row]).1
  = "Today is Asha & Ben's birthday 🎉".
Proof.
  rewrite (birthday_text_untranslated
             (Demo.env MariaDB (Demo.flags 1 "Weekly") Demo.staff)
             [asha_row; ben_row]).
  - reflexivity.
  - intros s. reflexivity.
Defined.

(** *** The work-anniversary run *)

(** Every row of the work-anniversary query carries a date of joining:
    the WHERE clause has matched on it. *)
Lemma anniversary_rows_have_dates E r :
  r ∈ matching_rows E emp_date_of_joining →
  ∃ joined, date_of_joining r = Some (Some joined).
Proof.
  intros Hr.
  destruct (elem_of_matching_rows _ _ _ Hr) as (e & joined & _ & -> & _ & Hj & _).
  exists joined. unfold select_row. cbn [date_of_joining]. by rewrite Hj.
Qed.

Lemma collect_texts_ok E persons :
  Forall (λ p, ∃ joined, date_of_joining p = Some (Some joined)) persons →
  ∃ texts, collect (person_text_with_years E) persons = Ok texts.
Proof.
  induction 1 as [|p persons [joined Hp] _ [texts IH]]; [by eexists|].
  simpl. rewrite (person_text_with_years_joined _ _ _ Hp), IH. by eexists.
Qed.

Lemma anniversary_text_ok E persons :
  Forall (λ p, ∃ joined, date_of_joining p = Some (Some joined)) persons →
  ∃ text, get_work_anniversary_reminder_text_and_message E persons = Ok text.
Proof.
  intros Hdates. unfold get_work_anniversary_reminder_text_and_message.
  destruct (collect_texts_ok E _ Hdates) as [texts Htexts].
  destruct Hdates as [|p persons [joined Hp] Hrest].
  - by eexists.
  - destruct Hrest as [|p' persons Hp' Hrest].
    + rewrite (person_text_with_years_joined _ _ _ Hp). by eexists.
    + rewrite Htexts. by eexists.
Qed.

Lemma shared_anniversary_step_ok E persons person :
  (∀ m, sendmail E m = Ok tt) →
  Forall (λ p, ∃ joined, date_of_joining p = Some (Some joined)) persons →
  ∃ m, shared_work_anniversary_step E persons person = ([SendMail m], Ok tt).
Proof.
  intros Hsend Hdates. unfold shared_work_anniversary_step.
  destruct (anniversary_text_ok E (filter (λ d, d ≠ person) persons))
    as [[text message] ->].
  { apply Forall_forall. intros p [_ Hp]%list_elem_of_filter.
    by apply (proj1 (Forall_forall _ _) Hdates). }
  rewrite bind_lift_ok. unfold send_work_anniversary_reminder, frappe_sendmail, emit, lift.
  rewrite Hsend, bind_ok. by eexists.
Qed.

Lemma length_concat_singletons {A B} (f : A → list B) (l : list A) :
  (∀ x, x ∈ l → length (f x) = 1%nat) → length (concat (map f l)) = length l.
Proof.
  induction l as [|x l IH]; intros Hone; [done|].
  cbn [map concat]. rewrite length_app, Hone; [|left].
  simpl. f_equal. apply IH. intros y Hy. apply Hone. by right.
Qed.

Lemma anniversary_step_ok E c persons :
  (∀ c, ∃ emails, get_all_employee_emails E c = Ok emails) →
  (∀ m, sendmail E m = Ok tt) →
  Forall (λ p, ∃ joined, date_of_joining p = Some (Some joined)) persons →
  ∃ ms, work_anniversary_reminder_step E (c, persons) = (map SendMail ms, Ok tt)
        ∧ length ms = mails_for_group (length persons).
Proof.
  intros Hstore Hsend Hdates. unfold work_anniversary_reminder_step.
  destruct (Hstore c) as [emails ->]. rewrite bind_lift_ok.
  destruct (anniversary_text_ok E persons Hdates) as [[text message] ->].
  rewrite bind_lift_ok.
  unfold send_work_anniversary_reminder at 1. unfold frappe_sendmail, emit, lift.
  rewrite Hsend, bind_ok. cbn [fst snd app]. rewrite bind_ok. cbn [fst snd app].
  unfold mails_for_group. destruct (1 <? length persons)%nat.
  - assert (∀ some : list Row,
              ∃ ms, for_each some (shared_work_anniversary_step E persons)
                    = (map SendMail ms, Ok tt) ∧ length ms = length some)
      as Hloop.
    { induction some as [|p some (ms & IH & Hlen)]; [by exists []|].
      destruct (shared_anniversary_step_ok E persons p Hsend Hdates) as [m Hm].
      exists (m :: ms). cbn [for_each]. rewrite Hm, bind_ok, IH. split; [done|].
      simpl. by rewrite Hlen. }
    destruct (Hloop persons) as (ms & -> & Hlen).
    eexists (_ :: ms). split; [done|]. simpl. by rewrite Hlen.
  - eexists [_]. by split.
Qed.

(** On MariaDB, with an employee store and a mail sender that answer, the
    work-anniversary run ends normally whatever the flag is: building the
    text never fails, because every row the query returns has a date of
    joining.  It only sends mails: for every company of the grouping one,
    and one more for each person when the company's group has several. *)
Theorem work_anniversary_run_on_mariadb E :
  db_type E = MariaDB →
  (∀ c, ∃ emails, get_all_employee_emails E c = Ok emails) →
  (∀ m, sendmail E m = Ok tt) →
  outcome (send_work_anniversary_reminders E) = Ok tt
  ∧ trace (send_work_anniversary_reminders E)
    = map SendMail (mails (trace (send_work_anniversary_reminders E)))
  ∧ length (mails (trace (send_work_anniversary_reminders E)))
    = sum_list (map (λ item, mails_for_group (length item.2)) (anniversary_groups E)).
Proof.
  intros Hdb Hstore Hsend. rewrite (send_work_anniversary_reminders_unfold _ Hdb).
  pose proof (grouped_by_company_foldl (matching_rows E emp_date_of_joining)) as Hg.
  fold (anniversary_groups E) in Hg.
  assert (∀ some : list (pystr * list Row),
            (∀ item, item ∈ some → item ∈ anniversary_groups E) →
            ∃ ms, for_each some (work_anniversary_reminder_step E)
                  = (map SendMail ms, Ok tt)
                  ∧ length ms
                    = sum_list (map (λ item, mails_for_group (length item.2)) some))
    as Hloop.
  { induction some as [|[c persons] some IH]; intros Hsub; [by exists []|].
    destruct (IH ltac:(intros item Hitem; apply Hsub; by right)) as (ms & Hrest & Hlen).
    destruct (anniversary_step_ok E c persons Hstore Hsend) as (ms1 & Hstep & Hlen1).
    { apply Forall_forall. intros r Hr. apply (anniversary_rows_have_dates E r).
      eapply grouped_by_company_own_key; [exact Hg|apply Hsub; left|exact Hr]. }
    exists (ms1 ++ ms). cbn [for_each]. rewrite Hstep, bind_ok, Hrest. cbn [fst snd].
    split; [by rewrite map_app|]. rewrite length_app, Hlen1, Hlen. done. }
  destruct (Hloop (anniversary_groups E)) as (ms & -> & Hlen); [done|].
  unfold outcome, trace. cbn [fst snd]. rewrite mails_SendMail. done.
Qed.

Lemma work_anniversary_run_on_mariadb_witness :
  outcome (send_work_anniversary_reminders
             (Demo.env MariaDB (Demo.flags 0 "Weekly") Demo.staff)) = Ok tt.
Proof.
  refine (proj1 (work_anniversary_run_on_mariadb
                   (Demo.env MariaDB (Demo.flags 0 "Weekly") Demo.staff) _ _ _)).
  - reflexivity.
  - intros c. simpl. unfold Demo.company_emails.
    destruct (decide (c = Some "Acme")); [by eexists|].
    destruct (decide (c = Some "Globex")); by eexists.
  - reflexivity.
Defined.

(** On postgres the work-anniversary run never makes a call: PostgreSQL
    rejects the text of the query, so the run ends with the database's
    error before any company is looked at, whether or not anybody has an
    anniversary today and whatever the flag is.  The birthday run, when
    the reminders are on, ends the same way. *)
Theorem work_anniversary_run_on_postgres E :
  db_type E = Postgres →
  ∃ e, multisql E emp_date_of_joining = Raise e
       ∧ get_employees_having_an_event_today E "work_anniversary" = Raise e
       ∧ send_work_anniversary_reminders E = ([], Raise e)
       ∧ (birthday_reminders_on E → send_birthday_reminders E = ([], Raise e)).
Proof.
  intros Hdb. eexists. split; [by apply multisql_postgres|].
  assert (∀ event_type,
            event_type = "birthday" ∨ event_type = "work_anniversary" →
            get_employees_having_an_event_today E event_type
            = Raise (ProgrammingError "syntax error at or near 'name'")) as Hq.
  { intros event_type [-> | ->];
      unfold get_employees_having_an_event_today, multisql;
      rewrite Hdb; reflexivity. }
  split; [apply Hq; by right|]. split.
  - apply send_work_anniversary_reminders_query_error. apply Hq. by right.
  - intros Hon. apply send_birthday_reminders_query_error; [done|].
    apply Hq. by left.
Qed.

Lemma work_anniversary_run_on_postgres_witness :
  ∃ e, multisql (Demo.env Postgres (Demo.flags 1 "Weekly") Demo.staff)
                emp_date_of_joining = Raise e
       ∧ get_employees_having_an_event_today
           (Demo.env Postgres (Demo.flags 1 "Weekly") Demo.staff) "work_anniversary"
         = Raise e
       ∧ send_work_anniversary_reminders
           (Demo.env Postgres (Demo.flags 1 "Weekly") Demo.staff) = ([], Raise e)
       ∧ (birthday_reminders_on (Demo.env Postgres (Demo.flags 1 "Weekly") Demo.staff) →
          send_birthday_reminders
            (Demo.env Postgres (Demo.flags 1 "Weekly") Demo.staff) = ([], Raise e)).
Proof.
  apply (work_anniversary_run_on_postgres
           (Demo.env Postgres (Demo.flags 1 "Weekly") Demo.staff)).
  reflexivity.
Defined.

(** Someone who joins today is already congratulated: on MariaDB an
    active employee whose date of joining is today is among the rows the
    work-anniversary query returns, and is written with "completed 0
    years". *)
Theorem joined_today_completed_zero_years E e :
  db_type E = MariaDB →
  e ∈ tabEmployee E → emp_status e = "Active" →
  emp_date_of_joining e = Some (getdate E) →
  ∃ rows, multisql E emp_date_of_joining = Ok rows
          ∧ select_row e ∈ rows
          ∧ person_text_with_years E (select_row e)
            = Ok (emp_employee_name e +:+ " completed 0 years").
Proof.
  intros Hdb He Hactive Hjoined. exists (matching_rows E emp_date_of_joining).
  split; [by apply multisql_mariadb|]. split.
  - unfold matching_rows. apply list_elem_of_fmap. exists e. split; [done|].
    apply list_elem_of_filter. split; [|done].
    split; [|done]. unfold same_day_and_month. by rewrite Hjoined.
  - rewrite (person_text_with_years_joined E _ (getdate E)).
    + unfold completed_text. by rewrite Z.sub_diag.
    + unfold select_row. cbn [date_of_joining]. by rewrite Hjoined.
Qed.

Lemma joined_today_completed_zero_years_witness :
  person_text_with_years
    (Demo.env MariaDB (Demo.flags 1 "Weekly")
       [mkEmployee "HR-EMP-00020" "Noor" (Some "Acme") None None None None
          (Some (mkDate 1995 6 1)) (Some (mkDate 2024 1 15)) "Active"])
    (select_row
       (mkEmployee "HR-EMP-00020" "Noor" (Some "Acme") None None None None
          (Some (mkDate 1995 6 1)) (Some (mkDate 2024 1 15)) "Active"))
  = Ok "Noor completed 0 years".
Proof.
  destruct (joined_today_completed_zero_years
              (Demo.env MariaDB (Demo.flags 1 "Weekly")
                 [mkEmployee "HR-EMP-00020" "Noor" (Some "Acme") None None None None
                    (Some (mkDate 1995 6 1)) (Some (mkDate 2024 1 15)) "Active"])
              (mkEmployee "HR-EMP-00020" "Noor" (Some "Acme") None None None None
                 (Some (mkDate 1995 6 1)) (Some (mkDate 2024 1 15)) "Active"))
    as (rows & _ & _ & Htext).
  - reflexivity.
  - left.
  - reflexivity.
  - reflexivity.
  - exact Htext.
Defined.

(** *** The birthday run *)

Lemma length_birthday_mails_of E item :
  length (birthday_mails_of E item) = mails_for_group (length item.2).
Proof.
  unfold birthday_mails_of, mails_for_group.
  destruct (1 <? length item.2)%nat; [|done]. simpl. by rewrite length_map.
Qed.

(** How many mails the birthday run sends: on MariaDB, with the
    reminders on and collaborators that answer, for every company of the grouping one mail,
    and one more for each birthday person when the company has several.  A
    company with a single birthday person gets the group mail only. *)
Theorem birthday_run_mail_count E :
  db_type E = MariaDB →
  birthday_reminders_on E →
  (∀ c, ∃ emails, get_all_employee_emails E c = Ok emails) →
  (∀ m, sendmail E m = Ok tt) →
  length (mails (trace (send_birthday_reminders E)))
  = sum_list (map (λ item, mails_for_group (length item.2)) (birthday_groups E)).
Proof.
  intros Hdb Hon Hstore Hsend.
  rewrite (send_birthday_reminders_run _ Hdb Hon Hstore Hsend).
  unfold trace. cbn [fst]. rewrite mails_SendMail.
  induction (birthday_groups E) as [|item groups IH]; [done|].
  cbn [map concat sum_list]. rewrite length_app, length_birthday_mails_of, IH. done.
Qed.

Lemma birthday_run_mail_count_witness :
  length (mails (trace (send_birthday_reminders
                          (Demo.env MariaDB (Demo.flags 0 "Weekly") Demo.staff))))
  = 4%nat.
Proof.
  rewrite (birthday_run_mail_count (Demo.env MariaDB (Demo.flags 0 "Weekly") Demo.staff)).
  - reflexivity.
  - reflexivity.
  - right. reflexivity.
  - intros c. simpl. unfold Demo.company_emails.
    destruct (decide (c = Some "Acme")); [by eexists|].
    destruct (decide (c = Some "Globex")); by eexists.
  - reflexivity.
Defined.

(** Nobody is written to twice about their own birthday: in the mails of
    one company, the address a person's special mail goes to is not among
    the recipients of the group mail, nor of any mail with a list of
    recipients. *)
Theorem shared_address_not_in_group_mail E item person m to :
  person ∈ item.2 →
  m ∈ birthday_mails_of E item → recipients m = ToList to →
  person_email_of person ∉ to.
Proof.
  intros Hperson Hm Hto.
  apply elem_of_birthday_mails_of in Hm as [->|(q & _ & ->)]; [|done].
  unfold group_birthday_mail, birthday_mail in Hto. cbn [recipients] in Hto.
  injection Hto as <-. intros Hin.
  apply (proj2 (set_difference_spec _ _)) in Hin as [_ Hout].
  apply Hout. apply list_elem_of_fmap. by exists person.
Qed.

Lemma shared_address_not_in_group_mail_witness :
  person_email_of asha_row ∉ [Some "chen@acme.test"].
Proof.
  refine (shared_address_not_in_group_mail
            (Demo.env MariaDB (Demo.flags 0 "Weekly") Demo.staff)
            (Some "Acme", [asha_row; ben_row]) asha_row
            (group_birthday_mail
               (Demo.env MariaDB (Demo.flags 0 "Weekly") Demo.staff)
               [Some "asha@acme.test"; Some "ben@home.test"; Some "chen@acme.test"]
               [asha_row; ben_row])
            [Some "chen@acme.test"] _ _ _).
  - left.
  - left.
  - vm_compute. reflexivity.
Defined.

Lemma birthday_step_error E item e :
  (birthday_reminder_step E item).2 = Raise e →
  (∃ c, get_all_employee_emails E c = Raise e) ∨ (∃ m, sendmail E m = Raise e).
Proof.
  destruct item as [c persons]. unfold birthday_reminder_step.
  destruct (get_all_employee_emails E c) as [emails|x] eqn:Hstore.
  - rewrite bind_lift_ok.
    destruct (get_birthday_reminder_text_and_message E persons) as [text message].
    unfold send_birthday_reminder at 1. unfold frappe_sendmail, emit, lift.
    rewrite bind_ok. cbn [fst snd app].
    match goal with |- context [sendmail E ?mail] => destruct (sendmail E mail) as [[]|x] eqn:Hsend end.
    + rewrite bind_ok. cbn [fst snd].
      destruct (1 <? length persons)%nat; [|done].
      intros (person & _ & Hstep & _)%for_each_raise_inv.
      rewrite shared_birthday_step_run in Hstep. right. by eexists.
    + cbn. intros [= ->]. right. by eexists.
  - cbn. intros [= ->]. left. by exists c.
Qed.

(** A birthday run that ends with an exception got it from outside: from
    the query, from [get_all_employee_emails], or from the mail sender.
    Reading the flag, grouping the rows, working out the recipients and
    building the text never fail. *)
Theorem birthday_run_errors_come_from_collaborators E e :
  outcome (send_birthday_reminders E) = Raise e →
  multisql E emp_date_of_birth = Raise e
  ∨ (∃ c, get_all_employee_emails E c = Raise e)
  ∨ (∃ m, sendmail E m = Raise e).
Proof.
  intros Hraise.
  assert (birthday_reminders_on E) as Hon.
  { destruct (hr_stop_birthday_reminders (settings E)) as [z|] eqn:Hflag;
      [|by left].
    destruct (decide (z = 0)) as [->|Hnz]; [by right|].
    unfold send_birthday_reminders in Hraise. rewrite Hflag in Hraise.
    cbn [int_or] in Hraise. rewrite (proj2 (Z.eqb_neq z 0) Hnz) in Hraise.
    by rewrite (proj2 (Z.eqb_neq z 0) Hnz) in Hraise. }
  destruct (db_type E) eqn:Hdb.
  - right. rewrite (send_birthday_reminders_unfold _ Hdb Hon) in Hraise.
    apply for_each_raise_inv in Hraise as (item & _ & Hstep & _).
    by eapply birthday_step_error.
  - left. rewrite (multisql_postgres _ _ Hdb).
    assert (get_employees_who_are_born_today E
            = Raise (ProgrammingError "syntax error at or near 'name'")) as Hq.
    { unfold get_employees_who_are_born_today, get_employees_having_an_event_today,
        multisql. rewrite Hdb. reflexivity. }
    rewrite (send_birthday_reminders_query_error _ _ Hon Hq) in Hraise.
    by injection Hraise as <-.
Qed.

Lemma birthday_run_errors_come_from_collaborators_witness :
  multisql (refusing_sender (Demo.env MariaDB (Demo.flags 0 "Weekly") Demo.staff))
           emp_date_of_birth
  = Raise (CollaboratorError "mail queue is down")
  ∨ (∃ c, get_all_employee_emails
          (refusing_sender (Demo.env MariaDB (Demo.flags 0 "Weekly") Demo.staff)) c
        = Raise (CollaboratorError "mail queue is down"))
  ∨ (∃ m, sendmail
            (refusing_sender (Demo.env MariaDB (Demo.flags 0 "Weekly") Demo.staff)) m
          = Raise (CollaboratorError "mail queue is down")).
Proof.
  apply (birthday_run_errors_come_from_collaborators
           (refusing_sender (Demo.env MariaDB (Demo.flags 0 "Weekly") Demo.staff))).
  reflexivity.
Defined.
